(** * Concrete module types: the structural equality that decides type sharing

    A shallow embedding of [torch/csrc/jit/script/concrete_module_type.{h,cpp}]:
    the descriptor [ConcreteModuleTypeData], its [operator==], the builder
    [RawConcreteModuleType], the finalized [ConcreteModuleType] and
    [createTypeFromData].

    Conventions.
    - A [py::object] is the address of the Python object it refers to;
      [py::object::is] compares addresses.
    - A [std::shared_ptr<Type>] is an optional address; [None] is [nullptr].
      What lies behind such an address (the JIT type system) is not part of
      these files and is reached through the interface [JitTypes].
    - A [std::unordered_map<std::string, V>] is a [gmap string V]; its
      iteration order is the one of [map_to_list].
    - C++ exceptions are an outcome of their own; every call of the Python
      comparison is recorded, so that a statement can speak about which
      comparisons a run performed. *)

From Stdlib Require Import ZArith String Ascii List Permutation Sorted OrdersEx Lia.
From stdpp Require Import base option list gmap strings sorting.

Local Open Scope Z_scope.
Local Open Scope nat_scope.
Local Set Warnings "-register-all".

(** ** Handles *)

Definition PyObject := N.
Definition py_is (a b : PyObject) : bool := N.eqb a b.

Definition TypeRef := N.
Definition TypePtr := option TypeRef.

(** The part of the JIT type system the files use: [*a == *b] on types,
    [type->cast<FunctionType>() != nullptr],
    [type->cast<InterfaceType>() && type->is_module()], and [unshapedType]. *)
Class JitTypes := {
  type_equal : TypeRef → TypeRef → bool;
  is_FunctionType : TypeRef → bool;
  is_module_InterfaceType : TypeRef → bool;
  unshapedType : TypeRef → TypeRef
}.

(** ** Qualified names ([c10::QualifiedName], as far as the files use it) *)

Record QualifiedName := mkQualifiedName { prefix : string; name : string }.

#[global] Instance QualifiedName_eq_dec : EqDecision QualifiedName.
Proof. solve_decision. Defined.

(** The Python side: [PyObject_RichCompareBool(a, b, Py_EQ)], which answers
    [1], [0] or [-1] (an error is set), and
    [torch._jit_internal._qualified_name] followed by the parsing of its
    result into a [c10::QualifiedName]. *)
Class PyRuntime := {
  PyObject_RichCompareBool_EQ : PyObject → PyObject → Z;
  _qualified_name : PyObject → QualifiedName
}.

(** ** Outcomes and computations *)

Inductive exception := error_already_set | internal_assert_failed.

Inductive outcome (A : Type) :=
  | Ok (a : A)
  | Throw (e : exception)
  | OutOfFuel.
Arguments Ok {A} a.
Arguments Throw {A} e.
Arguments OutOfFuel {A}.

(** A computation that may call into Python: the comparisons it performed,
    oldest first, and how it ended. *)
Record Comp (A : Type) := mkComp {
  calls : list (PyObject * PyObject);
  result : outcome A
}.
Arguments mkComp {A} calls result.
Arguments calls {A} _.
Arguments result {A} _.

#[global] Instance Comp_ret : MRet Comp := λ A a, mkComp [] (Ok a).

#[global] Instance Comp_bind : MBind Comp := λ A B f m,
  match result m with
  | Ok a => mkComp (calls m ++ calls (f a)) (result (f a))
  | Throw e => mkComp (calls m) (Throw e)
  | OutOfFuel => mkComp (calls m) OutOfFuel
  end.

(** [a && b] of C++: [b] is evaluated only when [a] is true. *)
Definition andM (a b : Comp bool) : Comp bool :=
  r ← a; if r : bool then b else mret false.
Infix "&&&" := andM (at level 40, left associativity).

(** ** Containers *)

(** [std::unordered_map::emplace]: nothing happens when the key is present. *)
Definition emplace {V} (k : string) (v : V) (m : gmap string V) : gmap string V :=
  match m !! k with
  | Some _ => m
  | None => <[k:=v]> m
  end.

(** [it = m.find(k); it != m.end() ? it->second : nullopt]. *)
Definition find {V} (k : string) (m : gmap string V) : option V := m !! k.

Fixpoint allM {A} (p : A → Comp bool) (l : list A) : Comp bool :=
  match l with
  | [] => mret true
  | x :: l' => r ← p x; if r : bool then allM p l' else mret false
  end.

(** [operator==] of [std::unordered_map]: equal sizes, and every entry of the
    left map has an entry of the same key in the right one with an equal
    value. The walk stops at the first entry that differs. *)
Definition unordered_map_eq {V} (value_eq : V → V → Comp bool)
    (lhs rhs : gmap string V) : Comp bool :=
  if negb (size lhs =? size rhs) then mret false
  else allM (λ kv, match rhs !! kv.1 with
                   | None => mret false
                   | Some w => value_eq kv.2 w
                   end) (map_to_list lhs).

(** [std::equal] over two ranges of the same length. *)
Fixpoint std_equal {A} (elem_eq : A → A → Comp bool) (l1 l2 : list A) : Comp bool :=
  match l1, l2 with
  | x :: l1', y :: l2' =>
      r ← elem_eq x y; if r : bool then std_equal elem_eq l1' l2' else mret false
  | _, _ => mret true
  end.

(** [operator==] of [std::vector]. *)
Definition vector_eq {A} (elem_eq : A → A → Comp bool) (l1 l2 : list A) : Comp bool :=
  if negb (length l1 =? length l2) then mret false else std_equal elem_eq l1 l2.

(** ** The descriptor *)

Inductive IterableModuleKind := NONE | LIST | DICT.

#[global] Instance IterableModuleKind_eq_dec : EqDecision IterableModuleKind.
Proof. solve_decision. Defined.

Record Constant := mkConstant { v_ : PyObject }.

Record FunctionAttribute := mkFunctionAttribute {
  function_ : TypeRef;
  pyFunction_ : PyObject
}.

Record Attribute := mkAttribute { type_ : TypeRef; isParam_ : bool }.

(** A submodule entry: [meta_] for a nested finalized type, [mtype_] (the
    member [type_] of [ModuleInfo]) for an interface type; the entry made by
    [addModule] has a null [mtype_], the one made by [addModuleInterface] a
    null [meta_]. [M] stands for [ConcreteModuleType]. *)
Record ModuleInfo (M : Type) := mkModuleInfo {
  name_ : string;
  meta_ : option M;
  mtype_ : TypePtr
}.
Arguments mkModuleInfo {M} name_ meta_ mtype_.
Arguments name_ {M} _.
Arguments meta_ {M} _.
Arguments mtype_ {M} _.

Record ConcreteModuleTypeData (M : Type) := mkData {
  isPoisoned_ : bool;
  constants_ : gmap string Constant;
  attributes_ : gmap string Attribute;
  overloads_ : gmap string (list string);
  failedAttributes_ : gmap string string;
  functionAttributes_ : gmap string FunctionAttribute;
  modules_ : list (ModuleInfo M);
  iterableModuleKind_ : IterableModuleKind;
  pyClass_ : PyObject
}.
Arguments mkData {M}.
Arguments isPoisoned_ {M} _.
Arguments constants_ {M} _.
Arguments attributes_ {M} _.
Arguments overloads_ {M} _.
Arguments failedAttributes_ {M} _.
Arguments functionAttributes_ {M} _.
Arguments modules_ {M} _.
Arguments iterableModuleKind_ {M} _.
Arguments pyClass_ {M} _.

(** The finalized type: the frozen descriptor and the class type derived
    from it. *)
Inductive ConcreteModuleType := mkConcreteModuleType {
  data_ : ConcreteModuleTypeData ConcreteModuleType;
  jitType_ : TypePtr
}.

(** ** Equality of the member categories *)

Section Equality.
Context {JT : JitTypes} {Py : PyRuntime}.

(** [Constant::operator==]: the equivalent of [lhs == rhs] in Python. *)
Definition Constant_eq (lhs rhs : Constant) : Comp bool :=
  let rv := PyObject_RichCompareBool_EQ (v_ lhs) (v_ rhs) in
  mkComp [(v_ lhs, v_ rhs)]
         (if (rv =? -1)%Z then Throw error_already_set else Ok (rv =? 1)%Z).

(** [FunctionAttribute::operator==]: pointer equality of the Python
    function objects. *)
Definition FunctionAttribute_eq (lhs rhs : FunctionAttribute) : bool :=
  py_is (pyFunction_ lhs) (pyFunction_ rhs).

(** [Attribute::operator==]. *)
Definition Attribute_eq (lhs rhs : Attribute) : bool :=
  type_equal (type_ lhs) (type_ rhs) && bool_decide (isParam_ lhs = isParam_ rhs).

(** [operator==(ModuleInfo, ModuleInfo)]. *)
Definition ModuleInfo_eq {M} (equals : M → M → Comp bool)
    (lhs rhs : ModuleInfo M) : Comp bool :=
  match meta_ lhs, meta_ rhs with
  | Some l, Some r => equals l r
  | _, _ =>
      match mtype_ lhs, mtype_ rhs with
      | Some l, Some r => mret (type_equal l r)
      | _, _ => mret false
      end
  end.

(** [std::sort] with the comparison [a.name_ < b.name_]. The standard leaves
    the relative order of entries of the same name open; the library code
    sorts short ranges by straight insertion, which keeps it, and so does
    this definition. *)
Fixpoint insert_by_name {M} (x : ModuleInfo M) (l : list (ModuleInfo M))
    : list (ModuleInfo M) :=
  match l with
  | [] => [x]
  | y :: l' =>
      if String.ltb (name_ y) (name_ x) then y :: insert_by_name x l'
      else x :: y :: l'
  end.

Definition sort_by_name {M} (l : list (ModuleInfo M)) : list (ModuleInfo M) :=
  foldr insert_by_name [] l.

(** [operator==(ConcreteModuleTypeData, ConcreteModuleTypeData)], with the
    comparison of nested finalized types as a parameter. *)
Definition ConcreteModuleTypeData_eq {M} (equals : M → M → Comp bool)
    (lhs rhs : ConcreteModuleTypeData M) : Comp bool :=
  if isPoisoned_ lhs || isPoisoned_ rhs then mret false
  else
    equal ←
      mret (py_is (pyClass_ lhs) (pyClass_ rhs)) &&&
      mret (bool_decide (iterableModuleKind_ lhs = iterableModuleKind_ rhs)) &&&
      unordered_map_eq Constant_eq (constants_ lhs) (constants_ rhs) &&&
      unordered_map_eq (λ a b, mret (Attribute_eq a b))
                       (attributes_ lhs) (attributes_ rhs) &&&
      unordered_map_eq (λ a b, mret (bool_decide (a = b)))
                       (overloads_ lhs) (overloads_ rhs) &&&
      unordered_map_eq (λ a b, mret (FunctionAttribute_eq a b))
                       (functionAttributes_ lhs) (functionAttributes_ rhs);
    if negb equal then mret false
    else
      let lhsSorted := sort_by_name (modules_ lhs) in
      let rhsSorted := sort_by_name (modules_ rhs) in
      vector_eq (ModuleInfo_eq equals) lhsSorted rhsSorted.

(** ** The finalized type *)

(** Nesting depth of a finalized type. *)
Fixpoint height (t : ConcreteModuleType) : nat :=
  S (list_max (List.map (λ info, match meta_ info with
                                 | Some m => height m
                                 | None => 0
                                 end) (modules_ (data_ t)))).

(** [ConcreteModuleType::equals], unrolled [fuel] levels deep. *)
Fixpoint equals_fuel (fuel : nat) (self other : ConcreteModuleType) : Comp bool :=
  match fuel with
  | 0 => mkComp [] OutOfFuel
  | S fuel' =>
      if bool_decide (jitType_ self = jitType_ other) then mret true
      else ConcreteModuleTypeData_eq (equals_fuel fuel') (data_ self) (data_ other)
  end.

(** [ConcreteModuleType::equals]: the recursion goes through the submodules
    of [self], so [height self] levels are all it can need. *)
Definition equals (self other : ConcreteModuleType) : Comp bool :=
  equals_fuel (height self) self other.

End Equality.

(** ** The builder *)

Record RawConcreteModuleType := mkRaw {
  raw_data_ : ConcreteModuleTypeData ConcreteModuleType
}.

Section Builder.
Context {JT : JitTypes} {Py : PyRuntime}.

(** [explicit RawConcreteModuleType(py::object pyClass)]: every other member
    keeps its default. *)
Definition new (pyClass : PyObject) : RawConcreteModuleType :=
  mkRaw (mkData false ∅ ∅ ∅ ∅ ∅ [] NONE pyClass).

Definition setIterableModuleKind (kind : IterableModuleKind)
    (self : RawConcreteModuleType) : RawConcreteModuleType :=
  let d := raw_data_ self in
  mkRaw (mkData (isPoisoned_ d) (constants_ d) (attributes_ d) (overloads_ d)
             (failedAttributes_ d) (functionAttributes_ d) (modules_ d)
             kind (pyClass_ d)).

Definition setPoisoned (self : RawConcreteModuleType) : RawConcreteModuleType :=
  let d := raw_data_ self in
  mkRaw (mkData true (constants_ d) (attributes_ d) (overloads_ d)
             (failedAttributes_ d) (functionAttributes_ d) (modules_ d)
             (iterableModuleKind_ d) (pyClass_ d)).

Definition addConstant (name : string) (value : PyObject)
    (self : RawConcreteModuleType) : RawConcreteModuleType :=
  let d := raw_data_ self in
  mkRaw (mkData (isPoisoned_ d) (emplace name (mkConstant value) (constants_ d))
             (attributes_ d) (overloads_ d)
             (failedAttributes_ d) (functionAttributes_ d) (modules_ d)
             (iterableModuleKind_ d) (pyClass_ d)).

(** Both [TORCH_INTERNAL_ASSERT]s come before the [emplace]. *)
Definition addAttribute (name : string) (type : TypePtr) (isParameter : bool)
    (self : RawConcreteModuleType) : outcome RawConcreteModuleType :=
  match type with
  | None => Throw internal_assert_failed
  | Some ty =>
      if is_FunctionType ty then Throw internal_assert_failed
      else
        let d := raw_data_ self in
        Ok (mkRaw (mkData (isPoisoned_ d) (constants_ d)
                  (emplace name (mkAttribute (unshapedType ty) isParameter)
                           (attributes_ d))
                  (overloads_ d)
                  (failedAttributes_ d) (functionAttributes_ d) (modules_ d)
                  (iterableModuleKind_ d) (pyClass_ d)))
  end.

(** [type->expect<FunctionType>()] asserts that the cast succeeds. *)
Definition addFunctionAttribute (name : string) (type : TypePtr)
    (pyFunction : PyObject) (self : RawConcreteModuleType)
    : outcome RawConcreteModuleType :=
  match type with
  | None => Throw internal_assert_failed
  | Some ty =>
      if is_FunctionType ty then
        let d := raw_data_ self in
        Ok (mkRaw (mkData (isPoisoned_ d) (constants_ d) (attributes_ d)
                  (overloads_ d) (failedAttributes_ d)
                  (emplace name (mkFunctionAttribute ty pyFunction)
                           (functionAttributes_ d))
                  (modules_ d) (iterableModuleKind_ d) (pyClass_ d)))
      else Throw internal_assert_failed
  end.

(** [emplace_back]: no look at the names already there. *)
Definition addModule (name : string) (meta : option ConcreteModuleType)
    (self : RawConcreteModuleType) : RawConcreteModuleType :=
  let d := raw_data_ self in
  mkRaw (mkData (isPoisoned_ d) (constants_ d) (attributes_ d) (overloads_ d)
             (failedAttributes_ d) (functionAttributes_ d)
             (modules_ d ++ [mkModuleInfo name meta None])
             (iterableModuleKind_ d) (pyClass_ d)).

(** The assertion reads through [type] at once, so [type] is an address
    here. *)
Definition addModuleInterface (name : string) (type : TypeRef)
    (self : RawConcreteModuleType) : outcome RawConcreteModuleType :=
  if is_module_InterfaceType type then
    let d := raw_data_ self in
    Ok (mkRaw (mkData (isPoisoned_ d) (constants_ d) (attributes_ d) (overloads_ d)
              (failedAttributes_ d) (functionAttributes_ d)
              (modules_ d ++ [mkModuleInfo name None (Some type)])
              (iterableModuleKind_ d) (pyClass_ d)))
  else Throw internal_assert_failed.

Definition addOverload (methodName : string) (overloadedMethodNames : list string)
    (self : RawConcreteModuleType) : RawConcreteModuleType :=
  let d := raw_data_ self in
  mkRaw (mkData (isPoisoned_ d) (constants_ d) (attributes_ d)
             (emplace methodName overloadedMethodNames (overloads_ d))
             (failedAttributes_ d) (functionAttributes_ d) (modules_ d)
             (iterableModuleKind_ d) (pyClass_ d)).

Definition addFailedAttribute (name failureReason : string)
    (self : RawConcreteModuleType) : RawConcreteModuleType :=
  let d := raw_data_ self in
  mkRaw (mkData (isPoisoned_ d) (constants_ d) (attributes_ d) (overloads_ d)
             (emplace name failureReason (failedAttributes_ d))
             (functionAttributes_ d) (modules_ d)
             (iterableModuleKind_ d) (pyClass_ d)).

(** [equals(const RawConcreteModuleType&)]. *)
Definition Raw_equals (self other : RawConcreteModuleType) : Comp bool :=
  ConcreteModuleTypeData_eq equals (raw_data_ self) (raw_data_ other).

(** [equals(const ConcreteModuleType&)]. *)
Definition Raw_equals_finalized (self : RawConcreteModuleType)
    (other : ConcreteModuleType) : Comp bool :=
  ConcreteModuleTypeData_eq equals (raw_data_ self) (data_ other).

End Builder.

(** ** Queries of the finalized type *)

Definition getJitType (self : ConcreteModuleType) : TypePtr := jitType_ self.

Definition getPyClass (self : ConcreteModuleType) : PyObject := pyClass_ (data_ self).

Definition getIterableModuleKind (self : ConcreteModuleType) : IterableModuleKind :=
  iterableModuleKind_ (data_ self).

Definition findConstant (name : string) (self : ConcreteModuleType) : option PyObject :=
  v_ <$> find name (constants_ (data_ self)).

Definition findOverloads (name : string) (self : ConcreteModuleType)
    : option (list string) :=
  find name (overloads_ (data_ self)).

Definition findFailedAttribute (name : string) (self : ConcreteModuleType)
    : option string :=
  find name (failedAttributes_ (data_ self)).

(** [std::find_if] over [modules_], then [it->meta_]; [None] is [nullptr]. *)
Definition findSubmoduleConcreteType (name : string) (self : ConcreteModuleType)
    : option ConcreteModuleType :=
  match List.find (λ info, String.eqb (name_ info) name) (modules_ (data_ self)) with
  | None => None
  | Some info => meta_ info
  end.

(** [ModuleInfo::getJitType]. *)
Definition ModuleInfo_getJitType (info : ModuleInfo ConcreteModuleType) : TypePtr :=
  match meta_ info with
  | None => mtype_ info
  | Some meta => getJitType meta
  end.

(** [getConstantsPy]: a fresh map, filled by [emplace] entry by entry. *)
Definition getConstantsPy (self : ConcreteModuleType) : gmap string PyObject :=
  foldl (λ ret pr, emplace pr.1 (v_ pr.2) ret) ∅
        (map_to_list (constants_ (data_ self))).

(** [getAttributesPy]. *)
Definition getAttributesPy (self : ConcreteModuleType)
    : gmap string (TypePtr * bool) :=
  foldl (λ ret pr, emplace pr.1 (Some (type_ pr.2), isParam_ pr.2) ret) ∅
        (map_to_list (attributes_ (data_ self))).

(** [getModulesPy]: one [emplace_back] per entry of [modules_]. *)
Definition getModulesPy (self : ConcreteModuleType) : list (string * TypePtr) :=
  foldl (λ ret info, ret ++ [(name_ info, ModuleInfo_getJitType info)]) []
        (modules_ (data_ self)).

(** ** Sequences of calls on one builder

    What the driver does with a builder: a sequence of calls of its
    operations. A call whose assertion fails ends the sequence. *)

Inductive BuilderOp :=
  | AddConstant (name : string) (value : PyObject)
  | AddAttribute (name : string) (type : TypePtr) (isParameter : bool)
  | AddFunctionAttribute (name : string) (type : TypePtr) (pyFunction : PyObject)
  | AddModule (name : string) (meta : option ConcreteModuleType)
  | AddModuleInterface (name : string) (type : TypeRef)
  | AddOverload (methodName : string) (overloadedMethodNames : list string)
  | AddFailedAttribute (name failureReason : string)
  | SetIterableModuleKind (kind : IterableModuleKind)
  | SetPoisoned.

Section Calls.
Context {JT : JitTypes} {Py : PyRuntime}.

Definition call (op : BuilderOp) (self : RawConcreteModuleType)
    : outcome RawConcreteModuleType :=
  match op with
  | AddConstant name value => Ok (addConstant name value self)
  | AddAttribute name type isParameter => addAttribute name type isParameter self
  | AddFunctionAttribute name type pyFunction =>
      addFunctionAttribute name type pyFunction self
  | AddModule name meta => Ok (addModule name meta self)
  | AddModuleInterface name type => addModuleInterface name type self
  | AddOverload methodName names => Ok (addOverload methodName names self)
  | AddFailedAttribute name reason => Ok (addFailedAttribute name reason self)
  | SetIterableModuleKind kind => Ok (setIterableModuleKind kind self)
  | SetPoisoned => Ok (setPoisoned self)
  end.

Fixpoint calls_on (ops : list BuilderOp) (self : RawConcreteModuleType)
    : outcome RawConcreteModuleType :=
  match ops with
  | [] => Ok self
  | op :: ops' =>
      match call op self with
      | Ok self' => calls_on ops' self'
      | Throw e => Throw e
      | OutOfFuel => OutOfFuel
      end
  end.

(** What the assertions of the builder stand for: every attribute holds the
    unshaped form of a type that is no function type, every function
    attribute holds a function type, and a submodule entry with an interface
    type holds a module interface and no finalized type. *)
Definition well_formed (d : ConcreteModuleTypeData ConcreteModuleType) : Prop :=
  (∀ k a, attributes_ d !! k = Some a →
     ∃ ty, type_ a = unshapedType ty ∧ is_FunctionType ty = false) ∧
  (∀ k f, functionAttributes_ d !! k = Some f →
     is_FunctionType (function_ f) = true) ∧
  (∀ info t, info ∈ modules_ d → mtype_ info = Some t →
     meta_ info = None ∧ is_module_InterfaceType t = true).

End Calls.

(** A descriptor that has everything an earlier one has: the poison flag if
    it was set, the Python class, every keyed entry as it was stored, and the
    submodule entries as a prefix of its own. *)
Definition keeps_all (d d' : ConcreteModuleTypeData ConcreteModuleType) : Prop :=
  (isPoisoned_ d = true → isPoisoned_ d' = true) ∧
  pyClass_ d' = pyClass_ d ∧
  (∀ k v, constants_ d !! k = Some v → constants_ d' !! k = Some v) ∧
  (∀ k v, attributes_ d !! k = Some v → attributes_ d' !! k = Some v) ∧
  (∀ k v, overloads_ d !! k = Some v → overloads_ d' !! k = Some v) ∧
  (∀ k v, failedAttributes_ d !! k = Some v → failedAttributes_ d' !! k = Some v) ∧
  (∀ k v, functionAttributes_ d !! k = Some v →
          functionAttributes_ d' !! k = Some v) ∧
  (∃ l, modules_ d' = modules_ d ++ l).

(** The member of the descriptor a call writes, and the name it writes
    under when the member is keyed. *)
Inductive Member :=
  | Constants | Attributes | FunctionAttributes | Modules | Overloads
  | FailedAttributes | Kind | Poison.

#[global] Instance Member_eq_dec : EqDecision Member.
Proof. solve_decision. Defined.




(** ** Compiled class types and the type registry *)

(** Modelled from the spec: the compiled class type ([ClassType], not part of
    these files), "populated once from the descriptor's attributes and
    submodules": a qualified name and the fields in the order they were
    added. *)
Record ClassType := mkClassType {
  cls_name : QualifiedName;
  cls_is_module : bool;
  cls_attributes : list (string * TypePtr * bool)
}.

(** Modelled from the spec: the Type Registry ([CompilationUnit], not part of
    these files) with its three operations "lookup(qualifiedName) -> optional
    compiled type, register(type), mangle(qualifiedName) -> fresh unique
    name". [register_type] receives the name of the class next to its
    address. *)
Class TypeRegistry (CU : Type) := {
  get_class : QualifiedName → CU → TypePtr;
  mangle : QualifiedName → CU → QualifiedName * CU;
  register_type : TypeRef → QualifiedName → CU → CU
}.

(** What the spec says of the registry: a registered class is found under its
    name and hides no other; a mangled name is one nobody holds, and asking
    for it registers nothing. *)
Class TypeRegistryLaws (CU : Type) `{TypeRegistry CU} : Prop := {
  get_class_register_eq cls n cu :
    get_class n (register_type cls n cu) = Some cls;
  get_class_register_ne cls n n' cu :
    n ≠ n' → get_class n' (register_type cls n cu) = get_class n' cu;
  get_class_mangle_fresh n cu :
    get_class (mangle n cu).1 (mangle n cu).2 = None;
  get_class_mangle_other n cu n' :
    get_class n' (mangle n cu).2 = get_class n' cu
}.

(** The state [createTypeFromData] works on: the registry behind
    [get_python_cu()] and the class objects created so far. The address of a
    class object is its position in [classes]. *)
Record JitState (CU : Type) := mkJitState {
  python_cu : CU;
  classes : list ClassType
}.
Arguments mkJitState {CU} python_cu classes.
Arguments python_cu {CU} _.
Arguments classes {CU} _.

(** Modelled from the spec: [ClassType::create], a new class object without
    fields. *)
Definition ClassType_create (className : QualifiedName) (is_module : bool)
    (heap : list ClassType) : TypeRef * list ClassType :=
  (N.of_nat (length heap), heap ++ [mkClassType className is_module []]).

(** Modelled from the spec: [ClassType::addAttribute], which appends a field
    to the class object at address [cls]. *)
Definition ClassType_addAttribute (cls : TypeRef) (name : string) (type : TypePtr)
    (is_parameter : bool) (heap : list ClassType) : list ClassType :=
  alter (λ c, mkClassType (cls_name c) (cls_is_module c)
                          (cls_attributes c ++ [(name, type, is_parameter)]))
        (N.to_nat cls) heap.

Section Build.
Context {JT : JitTypes} {Py : PyRuntime} {CU : Type} {Reg : TypeRegistry CU}.

(** The class name [createTypeFromData] starts from: the qualified name of
    the Python class, put into [__torch__] when it has no prefix. *)
Definition canonical_name (data : ConcreteModuleTypeData ConcreteModuleType)
    : QualifiedName :=
  let className := _qualified_name (pyClass_ data) in
  if String.eqb (prefix className) "" then
    mkQualifiedName "__torch__" (name className)
  else className.

(** The name the class is registered under, and the registry after the
    question. *)
Definition resolve_name (className : QualifiedName) (cu : CU) : QualifiedName * CU :=
  match get_class className cu with
  | Some _ => mangle className cu
  | None => (className, cu)
  end.

Definition createTypeFromData (data : ConcreteModuleTypeData ConcreteModuleType)
    (st : JitState CU) : TypeRef * JitState CU :=
  let cu := python_cu st in
  let className := canonical_name data in
  let '(className, cu) := resolve_name className cu in
  let '(cls, heap) := ClassType_create className true (classes st) in
  let cu := register_type cls className cu in
  let heap :=
    foldl (λ h pr, ClassType_addAttribute cls pr.1 (Some (type_ pr.2))
                                          (isParam_ pr.2) h)
          heap (map_to_list (attributes_ data)) in
  let heap :=
    foldl (λ h info, ClassType_addAttribute cls (name_ info)
                                            (ModuleInfo_getJitType info) false h)
          heap (modules_ data) in
  (cls, mkJitState cu heap).

(** [ConcreteModuleType::ConcreteModuleType(ConcreteModuleTypeData)]. *)
Definition ConcreteModuleType_new (data : ConcreteModuleTypeData ConcreteModuleType)
    (st : JitState CU) : ConcreteModuleType * JitState CU :=
  let '(cls, st') := createTypeFromData data st in
  (mkConcreteModuleType data (Some cls), st').

(** [RawConcreteModuleType::build]. *)
Definition build (self : RawConcreteModuleType) (st : JitState CU)
    : ConcreteModuleType * JitState CU :=
  ConcreteModuleType_new (raw_data_ self) st.

End Build.

(** ** Statement helpers *)

(** Two descriptors that differ at most in [modules_]. *)
Definition same_except_modules {M} (a b : ConcreteModuleTypeData M) : Prop :=
  isPoisoned_ a = isPoisoned_ b ∧ constants_ a = constants_ b ∧
  attributes_ a = attributes_ b ∧ overloads_ a = overloads_ b ∧
  failedAttributes_ a = failedAttributes_ b ∧
  functionAttributes_ a = functionAttributes_ b ∧
  iterableModuleKind_ a = iterableModuleKind_ b ∧ pyClass_ a = pyClass_ b.

(** Two descriptors that differ at most in [failedAttributes_]. *)
Definition same_except_failedAttributes {M} (a b : ConcreteModuleTypeData M) : Prop :=
  isPoisoned_ a = isPoisoned_ b ∧ constants_ a = constants_ b ∧
  attributes_ a = attributes_ b ∧ overloads_ a = overloads_ b ∧
  functionAttributes_ a = functionAttributes_ b ∧ modules_ a = modules_ b ∧
  iterableModuleKind_ a = iterableModuleKind_ b ∧ pyClass_ a = pyClass_ b.

(** The comparison of the two Python objects fails. *)
Definition raises {Py : PyRuntime} (c : PyObject * PyObject) : Prop :=
  PyObject_RichCompareBool_EQ c.1 c.2 = (-1)%Z.

(** A run that lets every failed comparison out: when one of the comparisons
    it performed failed, it ends with the pending Python error. *)
Definition propagates {Py : PyRuntime} {A} (m : Comp A) : Prop :=
  ∀ c, c ∈ calls m → raises c → result m = Throw error_already_set.

(** A run that came to an end within the levels it was given. *)
Definition terminates {A} (m : Comp A) : Prop := result m ≠ OutOfFuel.

(** The order [std::sort] establishes: [b.name_ < a.name_] does not hold. *)
Definition name_le {M} (a b : ModuleInfo M) : Prop :=
  String.ltb (name_ b) (name_ a) = false.

(** [unordered_map_eq] for a comparison of values that cannot fail. *)
Definition unordered_map_eqb {V} (value_eqb : V → V → bool)
    (lhs rhs : gmap string V) : bool :=
  (size lhs =? size rhs) &&
  forallb (λ kv, match rhs !! kv.1 with
                 | None => false
                 | Some w => value_eqb kv.2 w
                 end) (map_to_list lhs).

(** ** Concrete instances *)

Module Example.
Local Open Scope N_scope.

(** Types 50 to 59 are function types, 60 is a module interface; two types
    are equal when they are the same object. *)
Definition types : JitTypes := {|
  type_equal := N.eqb;
  is_FunctionType := λ t, ((50 <=? t) && (t <? 60))%N;
  is_module_InterfaceType := λ t, (t =? 60)%N;
  unshapedType := λ t, t
|}.

(** An object is equal to itself; comparing object 99 with another one
    raises; any other two objects are different. Class 11 is [pkg.M], every
    other class is [M]. *)
Definition python : PyRuntime := {|
  PyObject_RichCompareBool_EQ := λ a b,
    if (a =? b)%N then 1%Z
    else if ((a =? 99) || (b =? 99))%N then (-1)%Z else 0%Z;
  _qualified_name := λ c,
    if (c =? 11)%N then mkQualifiedName "pkg" "M" else mkQualifiedName "" "M"
|}.

(** A finalized type without members. *)
Definition leaf (pyClass : PyObject) (jitType : TypeRef) : ConcreteModuleType :=
  mkConcreteModuleType (mkData false ∅ ∅ ∅ ∅ ∅ [] NONE pyClass) (Some jitType).

Definition X : ConcreteModuleType := leaf 20 100.
Definition Y : ConcreteModuleType := leaf 21 101.

Definition base : RawConcreteModuleType := @new 10.

(** Submodule [X] under the name [a], and under the name [b]. *)
Definition X_as_a : RawConcreteModuleType := addModule "a" (Some X) base.
Definition X_as_b : RawConcreteModuleType := addModule "b" (Some X) base.

(** The same two submodules, inserted in either order. *)
Definition ab : RawConcreteModuleType :=
  addModule "b" (Some Y) (addModule "a" (Some X) base).
Definition ba : RawConcreteModuleType :=
  addModule "a" (Some X) (addModule "b" (Some Y) base).

(** Two submodules of one name, inserted in either order. *)
Definition aXaY : RawConcreteModuleType :=
  addModule "a" (Some Y) (addModule "a" (Some X) base).
Definition aYaX : RawConcreteModuleType :=
  addModule "a" (Some X) (addModule "a" (Some Y) base).

Definition poisoned_ab : RawConcreteModuleType := setPoisoned ab.
Definition poisoned_ba : RawConcreteModuleType := setPoisoned ba.

(** A constant whose comparison with the constant of [k98] raises. *)
Definition k99 : RawConcreteModuleType := addConstant "k" 99 base.
Definition k98 : RawConcreteModuleType := addConstant "k" 98 base.

Definition with_everything : RawConcreteModuleType :=
  mkRaw (mkData false {["k" := mkConstant 1]} {["w" := mkAttribute 1 true]}
                {["forward" := ["forward__0"; "forward__1"]]}
                {["bad" := "could not convert"]}
                {["f" := mkFunctionAttribute 50 70]}
                [mkModuleInfo "a" (Some X) None] NONE 10).

(** A registry for tests: the registered names with their classes, newest
    first. A mangled name gets a prefix longer than every registered one. *)
Definition FakeRegistry := list (QualifiedName * TypeRef).

Definition fresh_prefix (p : string) (cu : FakeRegistry) : string :=
  foldr (λ e acc, String.append (prefix e.1) acc)
        (String.append "___torch_mangle_" p) cu.

#[global] Instance fake_registry : TypeRegistry FakeRegistry := {|
  get_class := λ n cu,
    snd <$> List.find (λ e, bool_decide (e.1 = n)) cu;
  mangle := λ n cu, (mkQualifiedName (fresh_prefix (prefix n) cu) (name n), cu);
  register_type := λ cls n cu, (n, cls) :: cu
|}.

Definition empty_state : JitState FakeRegistry := mkJitState [] [].

(** [base] after [addAttribute("w", tensor, true)]. *)
Definition w_tensor : RawConcreteModuleType :=
  mkRaw (mkData false ∅ {["w" := mkAttribute 1 true]} ∅ ∅ ∅ [] NONE 10).

(** [base] after [addFunctionAttribute("f", fn_type, h)] for the function
    objects 70 and 71, both of function type 50. *)
Definition f_70 : RawConcreteModuleType :=
  mkRaw (mkData false ∅ ∅ ∅ ∅ {["f" := mkFunctionAttribute 50 70]} [] NONE 10).
Definition f_71 : RawConcreteModuleType :=
  mkRaw (mkData false ∅ ∅ ∅ ∅ {["f" := mkFunctionAttribute 50 71]} [] NONE 10).

(** The same builder for another Python class, and as a list. *)
Definition other_class : RawConcreteModuleType := @new 11.
Definition as_list : RawConcreteModuleType := setIterableModuleKind LIST base.


(** A run of the driver on a fresh builder. *)
Definition discovery : list BuilderOp :=
  [AddConstant "k" 1; AddAttribute "w" (Some 1) true;
   AddFunctionAttribute "f" (Some 50) 70; AddModule "a" (Some X);
   AddModuleInterface "i" 60; AddOverload "forward" ["forward__0"];
   AddFailedAttribute "bad" "could not convert"; SetIterableModuleKind DICT;
   AddConstant "k" 2; SetPoisoned; AddAttribute "w" (Some 2) false].

(** A submodule entry made by [addModule("n", nullptr)]. *)
Definition null_submodule : RawConcreteModuleType := addModule "n" None base.

End Example.

(** * Properties *)

(** ** Computations *)

Lemma Comp_eta {A} (m : Comp A) : mkComp (calls m) (result m) = m.
Proof. by destruct m. Qed.

Section CompFacts.
Context {A B : Type}.

Lemma result_bind (m : Comp A) (f : A → Comp B) :
  result (m ≫= f) =
  match result m with
  | Ok a => result (f a)
  | Throw e => Throw e
  | OutOfFuel => OutOfFuel
  end.
Proof. unfold mbind, Comp_bind. by destruct (result m). Qed.

Lemma calls_bind (m : Comp A) (f : A → Comp B) :
  calls (m ≫= f) =
  match result m with
  | Ok a => calls m ++ calls (f a)
  | _ => calls m
  end.
Proof. unfold mbind, Comp_bind. by destruct (result m). Qed.

Lemma mret_bind (a : A) (f : A → Comp B) : mret a ≫= f = f a.
Proof. unfold mbind, Comp_bind, mret, Comp_ret. simpl. apply Comp_eta. Qed.

End CompFacts.

Lemma mret_andM (b : bool) (m : Comp bool) :
  mret b &&& m = if b then m else mret false.
Proof. unfold andM. by rewrite mret_bind. Qed.

(** ** The finalized type compared with itself *)

Section EqualityFacts.
Context {JT : JitTypes} {Py : PyRuntime}.

Lemma height_pos (t : ConcreteModuleType) : ∃ n, height t = S n.
Proof. destruct t. simpl. eauto. Qed.

Lemma equals_same_jitType (t u : ConcreteModuleType) :
  jitType_ t = jitType_ u → equals t u = mret true.
Proof.
  intros Hjit. unfold equals. destruct (height_pos t) as [n ->]. simpl.
  by rewrite bool_decide_eq_true_2.
Qed.

Lemma ConcreteModuleTypeData_eq_poisoned_l {M} (eqM : M → M → Comp bool)
    (lhs rhs : ConcreteModuleTypeData M) :
  isPoisoned_ lhs = true → ConcreteModuleTypeData_eq eqM lhs rhs = mret false.
Proof. intros H. unfold ConcreteModuleTypeData_eq. by rewrite H. Qed.

Lemma ConcreteModuleTypeData_eq_poisoned_r {M} (eqM : M → M → Comp bool)
    (lhs rhs : ConcreteModuleTypeData M) :
  isPoisoned_ rhs = true → ConcreteModuleTypeData_eq eqM lhs rhs = mret false.
Proof.
  intros H. unfold ConcreteModuleTypeData_eq. by rewrite H, orb_true_r.
Qed.

Lemma ConcreteModuleTypeData_eq_failedAttributes {M} (eqM : M → M → Comp bool)
    (a a' b b' : ConcreteModuleTypeData M) :
  same_except_failedAttributes a a' → same_except_failedAttributes b b' →
  ConcreteModuleTypeData_eq eqM a b = ConcreteModuleTypeData_eq eqM a' b'.
Proof.
  destruct a, a', b, b'. intros (?&?&?&?&?&?&?&?) (?&?&?&?&?&?&?&?).
  simpl in *. by subst.
Qed.

End EqualityFacts.

(** ** The recursion of [equals]

    [equals] is defined through [equals_fuel]; the lemmas below show that
    the levels it is given are enough: it satisfies the equation of the
    source, and it always comes to an end. *)

Section Recursion.
Context {JT : JitTypes} {Py : PyRuntime}.

Lemma std_equal_ext {A} (eq1 eq2 : A → A → Comp bool) (l1 l2 : list A) :
  (∀ x y, x ∈ l1 → eq1 x y = eq2 x y) →
  std_equal eq1 l1 l2 = std_equal eq2 l1 l2.
Proof.
  revert l2. induction l1 as [|x l1 IH]; intros [|y l2] Hext; simpl; try done.
  rewrite (Hext x y) by left. rewrite IH; [done|].
  intros x' y' Hx'. apply Hext. by right.
Qed.

Lemma ModuleInfo_eq_ext {M} (eq1 eq2 : M → M → Comp bool) (lhs rhs : ModuleInfo M) :
  (∀ m r, meta_ lhs = Some m → eq1 m r = eq2 m r) →
  ModuleInfo_eq eq1 lhs rhs = ModuleInfo_eq eq2 lhs rhs.
Proof.
  intros Hext. unfold ModuleInfo_eq.
  destruct (meta_ lhs) as [m|]; [|done]. destruct (meta_ rhs) as [r|]; [|done].
  by apply Hext.
Qed.

Lemma elem_of_insert_by_name {M} (x y : ModuleInfo M) (l : list (ModuleInfo M)) :
  y ∈ insert_by_name x l ↔ y = x ∨ y ∈ l.
Proof.
  induction l as [|z l IH]; simpl.
  - rewrite list_elem_of_singleton, elem_of_nil. tauto.
  - destruct (String.ltb (name_ z) (name_ x)).
    + rewrite !elem_of_cons, IH. tauto.
    + by rewrite !elem_of_cons.
Qed.

Lemma elem_of_sort_by_name {M} (y : ModuleInfo M) (l : list (ModuleInfo M)) :
  y ∈ sort_by_name l ↔ y ∈ l.
Proof.
  induction l as [|x l IH]; simpl; [done|].
  fold (sort_by_name l). by rewrite elem_of_insert_by_name, IH, elem_of_cons.
Qed.

Lemma ConcreteModuleTypeData_eq_ext {M} (eq1 eq2 : M → M → Comp bool)
    (lhs rhs : ConcreteModuleTypeData M) :
  (∀ info m r, info ∈ modules_ lhs → meta_ info = Some m → eq1 m r = eq2 m r) →
  ConcreteModuleTypeData_eq eq1 lhs rhs = ConcreteModuleTypeData_eq eq2 lhs rhs.
Proof.
  intros Hext. unfold ConcreteModuleTypeData_eq, vector_eq.
  rewrite (std_equal_ext (ModuleInfo_eq eq1) (ModuleInfo_eq eq2)); [done|].
  intros x y Hx. apply ModuleInfo_eq_ext. intros m r Hm.
  apply (Hext x); [|done]. by apply elem_of_sort_by_name.
Qed.

Lemma height_unfold (t : ConcreteModuleType) :
  height t = S (list_max (List.map (λ info, match meta_ info with
                                            | Some m => height m
                                            | None => 0
                                            end) (modules_ (data_ t)))).
Proof. by destruct t. Qed.

Lemma height_submodule (t m : ConcreteModuleType) info :
  info ∈ modules_ (data_ t) → meta_ info = Some m → height m < height t.
Proof.
  intros Hin Hm. rewrite (height_unfold t).
  apply Nat.lt_succ_r.
  assert (Forall (λ k, k ≤ list_max (List.map (λ info, match meta_ info with
                                            | Some m => height m
                                            | None => 0
                                            end) (modules_ (data_ t))))
                 (List.map (λ info, match meta_ info with
                                            | Some m => height m
                                            | None => 0
                                            end) (modules_ (data_ t)))) as Hall
    by by apply list_max_le.
  rewrite Forall_forall in Hall. apply (Hall (height m)).
  apply list_elem_of_In, in_map_iff. exists info. rewrite Hm.
  split; [done|]. by apply list_elem_of_In.
Qed.

Lemma equals_fuel_enough (n n' : nat) (a b : ConcreteModuleType) :
  height a ≤ n → height a ≤ n' → equals_fuel n a b = equals_fuel n' a b.
Proof.
  revert n' a b. induction n as [|n IH]; intros n' a b Hn Hn'.
  { destruct (height_pos a) as [k Hk]. lia. }
  destruct n' as [|n']. { destruct (height_pos a) as [k Hk]. lia. }
  simpl. case_bool_decide; [done|].
  apply ConcreteModuleTypeData_eq_ext. intros info m r Hin Hm.
  pose proof (height_submodule a m info Hin Hm). apply IH; lia.
Qed.

(** The equation of [ConcreteModuleType::equals]. *)
Lemma equals_unfold (self other : ConcreteModuleType) :
  equals self other =
  if bool_decide (jitType_ self = jitType_ other) then mret true
  else ConcreteModuleTypeData_eq equals (data_ self) (data_ other).
Proof.
  unfold equals at 1. destruct (height_pos self) as [k Hk]. rewrite Hk. simpl.
  case_bool_decide; [done|].
  apply ConcreteModuleTypeData_eq_ext. intros info m r Hin Hm.
  pose proof (height_submodule self m info Hin Hm). unfold equals.
  apply equals_fuel_enough; lia.
Qed.

Lemma terminates_mret {A} (a : A) : terminates (mret a).
Proof. done. Qed.

Lemma terminates_bind {A B} (m : Comp A) (f : A → Comp B) :
  terminates m → (∀ a, terminates (f a)) → terminates (m ≫= f).
Proof.
  unfold terminates. intros Hm Hf. rewrite result_bind.
  destruct (result m); [apply Hf | done | done].
Qed.

Lemma terminates_andM (a b : Comp bool) :
  terminates a → terminates b → terminates (a &&& b).
Proof. intros Ha Hb. apply terminates_bind; [done|]. by intros []. Qed.

Lemma terminates_allM {A} (p : A → Comp bool) (l : list A) :
  (∀ x, terminates (p x)) → terminates (allM p l).
Proof.
  intros Hp. induction l as [|x l IH]; simpl; [done|].
  apply terminates_bind; [done|]. by intros [].
Qed.

Lemma terminates_unordered_map_eq {V} (value_eq : V → V → Comp bool)
    (lhs rhs : gmap string V) :
  (∀ a b, terminates (value_eq a b)) → terminates (unordered_map_eq value_eq lhs rhs).
Proof.
  intros Hv. unfold unordered_map_eq. destruct (negb _); [done|].
  apply terminates_allM. intros [k v]. simpl. by destruct (rhs !! k).
Qed.

Lemma terminates_Constant_eq (lhs rhs : Constant) : terminates (Constant_eq lhs rhs).
Proof. unfold terminates, Constant_eq. simpl. by destruct (_ =? _)%Z. Qed.

Lemma terminates_std_equal {A} (elem_eq : A → A → Comp bool) (l1 l2 : list A) :
  (∀ x y, x ∈ l1 → terminates (elem_eq x y)) → terminates (std_equal elem_eq l1 l2).
Proof.
  revert l2. induction l1 as [|x l1 IH]; intros [|y l2] He; simpl; try done.
  apply terminates_bind; [apply He; left|].
  intros []; [|done]. apply IH. intros x' y' Hx'. apply He. by right.
Qed.

Lemma terminates_ConcreteModuleTypeData_eq {M} (eqM : M → M → Comp bool)
    (lhs rhs : ConcreteModuleTypeData M) :
  (∀ info m r, info ∈ modules_ lhs → meta_ info = Some m → terminates (eqM m r)) →
  terminates (ConcreteModuleTypeData_eq eqM lhs rhs).
Proof.
  intros He. unfold ConcreteModuleTypeData_eq.
  destruct (_ || _); [done|].
  apply terminates_bind.
  - repeat apply terminates_andM; try apply terminates_mret;
      apply terminates_unordered_map_eq; intros;
      apply terminates_mret || apply terminates_Constant_eq.
  - intros b. destruct (negb b); [done|]. unfold vector_eq.
    destruct (negb _); [done|].
    apply terminates_std_equal. intros x y Hx. unfold ModuleInfo_eq.
    destruct (meta_ x) as [m|] eqn:Hm.
    + destruct (meta_ y) as [r|].
      * apply (He x); [|done]. by apply elem_of_sort_by_name.
      * by destruct (mtype_ x), (mtype_ y).
    + by destruct (mtype_ x), (mtype_ y).
Qed.

(** [equals] always comes to an end. *)
Lemma equals_terminates (self other : ConcreteModuleType) :
  terminates (equals self other).
Proof.
  remember (height self) as n eqn:Hn. revert self other Hn.
  induction n as [n IH] using lt_wf_ind. intros self other ->.
  rewrite equals_unfold. case_bool_decide; [done|].
  apply terminates_ConcreteModuleTypeData_eq. intros info m r Hin Hm.
  apply (IH (height m)); [|done]. by apply (height_submodule self m info).
Qed.

End Recursion.

(** C2. A poisoned descriptor compares unequal in every comparison of
    descriptors: with itself, with any other builder on either side, and with
    any finalized type. The answer is [false] and no constant is compared. *)
Theorem poisoned_descriptor_equals_nothing
    {JT : JitTypes} {Py : PyRuntime} (D : RawConcreteModuleType)
    (Hpoisoned : isPoisoned_ (raw_data_ D) = true) :
  Raw_equals D D = mret false ∧
  (∀ other : RawConcreteModuleType,
     Raw_equals D other = mret false ∧ Raw_equals other D = mret false) ∧
  (∀ other : ConcreteModuleType, Raw_equals_finalized D other = mret false) ∧
  (∀ other : ConcreteModuleTypeData ConcreteModuleType,
     ConcreteModuleTypeData_eq equals (raw_data_ D) other = mret false ∧
     ConcreteModuleTypeData_eq equals other (raw_data_ D) = mret false).
Proof.
  unfold Raw_equals, Raw_equals_finalized.
  repeat split; intros;
    (by apply ConcreteModuleTypeData_eq_poisoned_l)
    || (by apply ConcreteModuleTypeData_eq_poisoned_r).
Qed.

Lemma poisoned_descriptor_equals_nothing_witness :
  isPoisoned_ (raw_data_ Example.poisoned_ab) = true ∧
  Raw_equals (JT := Example.types) (Py := Example.python)
             Example.poisoned_ab Example.poisoned_ab = mret false.
Proof.
  split; [reflexivity|].
  exact (proj1 (poisoned_descriptor_equals_nothing
                  (JT := Example.types) (Py := Example.python)
                  Example.poisoned_ab eq_refl)).
Defined.

(** C3. A finalized type that is not poisoned equals itself, and two
    finalized types that hold the same class type object are equal at once:
    the answer is [true] and the run contains no comparison of constants. *)
Theorem finalized_equals_reflexive
    {JT : JitTypes} {Py : PyRuntime} (T : ConcreteModuleType)
    (Hnot_poisoned : isPoisoned_ (data_ T) = false) :
  result (equals T T) = Ok true ∧
  (∀ U : ConcreteModuleType, jitType_ T = jitType_ U →
     result (equals T U) = Ok true ∧ calls (equals T U) = [] ∧
     result (equals U T) = Ok true ∧ calls (equals U T) = []).
Proof.
  split.
  - by rewrite equals_same_jitType.
  - intros U HU. rewrite (equals_same_jitType T U), (equals_same_jitType U T) by done.
    done.
Qed.

Lemma finalized_equals_reflexive_witness :
  isPoisoned_ (data_ Example.X) = false ∧
  result (equals (JT := Example.types) (Py := Example.python) Example.X Example.X)
  = Ok true.
Proof.
  split; [reflexivity|].
  exact (proj1 (finalized_equals_reflexive
                  (JT := Example.types) (Py := Example.python) Example.X eq_refl)).
Defined.


(** ** Failures of the comparison of constants *)

Section Propagation.
Context {JT : JitTypes} {Py : PyRuntime}.

Lemma propagates_mret {A} (a : A) : propagates (mret a).
Proof. intros c Hc. cbn in Hc. by apply elem_of_nil in Hc. Qed.

Lemma propagates_bind {A B} (m : Comp A) (f : A → Comp B) :
  propagates m → (∀ a, propagates (f a)) → propagates (m ≫= f).
Proof.
  intros Hm Hf c Hc Hraise. rewrite result_bind. rewrite calls_bind in Hc.
  destruct (result m) as [a| |] eqn:Hres.
  - apply elem_of_app in Hc as [Hc|Hc].
    + specialize (Hm c Hc Hraise). congruence.
    + by apply (Hf a c).
  - specialize (Hm c Hc Hraise). congruence.
  - specialize (Hm c Hc Hraise). congruence.
Qed.

Lemma propagates_if {A} (b : bool) (m1 m2 : Comp A) :
  propagates m1 → propagates m2 → propagates (if b then m1 else m2).
Proof. by destruct b. Qed.

Lemma propagates_andM (a b : Comp bool) :
  propagates a → propagates b → propagates (a &&& b).
Proof.
  intros Ha Hb. apply propagates_bind; [done|].
  intros []; [done | apply propagates_mret].
Qed.

Lemma propagates_Constant_eq (lhs rhs : Constant) : propagates (Constant_eq lhs rhs).
Proof.
  intros c Hc Hraise. unfold Constant_eq in *. cbn in Hc.
  apply list_elem_of_singleton in Hc as ->. unfold raises in Hraise.
  cbn in *. by rewrite Hraise.
Qed.

Lemma propagates_allM {A} (p : A → Comp bool) (l : list A) :
  (∀ x, propagates (p x)) → propagates (allM p l).
Proof.
  intros Hp. induction l as [|x l IH]; simpl.
  - apply propagates_mret.
  - apply propagates_bind; [done|]. intros []; [done | apply propagates_mret].
Qed.

Lemma propagates_unordered_map_eq {V} (value_eq : V → V → Comp bool)
    (lhs rhs : gmap string V) :
  (∀ a b, propagates (value_eq a b)) → propagates (unordered_map_eq value_eq lhs rhs).
Proof.
  intros Hv. unfold unordered_map_eq. apply propagates_if.
  - apply propagates_mret.
  - apply propagates_allM. intros [k v]. simpl.
    destruct (rhs !! k); [done | apply propagates_mret].
Qed.

Lemma propagates_std_equal {A} (elem_eq : A → A → Comp bool) (l1 l2 : list A) :
  (∀ a b, propagates (elem_eq a b)) → propagates (std_equal elem_eq l1 l2).
Proof.
  intros He. revert l2. induction l1 as [|x l1 IH]; intros [|y l2]; simpl;
    try apply propagates_mret.
  apply propagates_bind; [done|]. intros []; [done | apply propagates_mret].
Qed.

Lemma propagates_ModuleInfo_eq {M} (eqM : M → M → Comp bool) (lhs rhs : ModuleInfo M) :
  (∀ a b, propagates (eqM a b)) → propagates (ModuleInfo_eq eqM lhs rhs).
Proof.
  intros He. unfold ModuleInfo_eq.
  destruct (meta_ lhs), (meta_ rhs), (mtype_ lhs), (mtype_ rhs);
    done || apply propagates_mret.
Qed.

Lemma propagates_ConcreteModuleTypeData_eq {M} (eqM : M → M → Comp bool)
    (lhs rhs : ConcreteModuleTypeData M) :
  (∀ a b, propagates (eqM a b)) →
  propagates (ConcreteModuleTypeData_eq eqM lhs rhs).
Proof.
  intros He. unfold ConcreteModuleTypeData_eq.
  apply propagates_if; [apply propagates_mret|].
  apply propagates_bind.
  - repeat apply propagates_andM; try apply propagates_mret;
      apply propagates_unordered_map_eq; intros;
      apply propagates_mret || apply propagates_Constant_eq.
  - intros b. apply propagates_if; [apply propagates_mret|].
    unfold vector_eq. apply propagates_if; [apply propagates_mret|].
    apply propagates_std_equal. intros. by apply propagates_ModuleInfo_eq.
Qed.

Lemma propagates_equals_fuel (fuel : nat) (a b : ConcreteModuleType) :
  propagates (equals_fuel fuel a b).
Proof.
  revert a b. induction fuel as [|fuel IH]; intros a b; simpl.
  - intros c Hc. cbn in Hc. by apply elem_of_nil in Hc.
  - apply propagates_if; [apply propagates_mret|].
    by apply propagates_ConcreteModuleTypeData_eq.
Qed.

Lemma propagates_equals (a b : ConcreteModuleType) : propagates (equals a b).
Proof. apply propagates_equals_fuel. Qed.

End Propagation.

(** C4. A failed comparison of two constants is never turned into an answer:
    [Constant::operator==] throws when the Python comparison reports an
    error, and a comparison of descriptors or of finalized types during which
    some pair of constants failed to compare ends with that error, not with
    [false] nor with any other boolean. *)
Theorem constant_comparison_failure_propagates
    {JT : JitTypes} {Py : PyRuntime} (x y : PyObject)
    (Hfails : PyObject_RichCompareBool_EQ x y = (-1)%Z) :
  result (Constant_eq (mkConstant x) (mkConstant y)) = Throw error_already_set ∧
  (∀ lhs rhs : RawConcreteModuleType,
     (x, y) ∈ calls (Raw_equals lhs rhs) →
     result (Raw_equals lhs rhs) = Throw error_already_set) ∧
  (∀ (lhs : RawConcreteModuleType) (rhs : ConcreteModuleType),
     (x, y) ∈ calls (Raw_equals_finalized lhs rhs) →
     result (Raw_equals_finalized lhs rhs) = Throw error_already_set) ∧
  (∀ lhs rhs : ConcreteModuleType,
     (x, y) ∈ calls (equals lhs rhs) →
     result (equals lhs rhs) = Throw error_already_set).
Proof.
  assert (raises (x, y)) as Hraise by exact Hfails.
  split; [|split; [|split]].
  - unfold Constant_eq. cbn. by rewrite Hfails.
  - intros lhs rhs Hin.
    by apply (propagates_ConcreteModuleTypeData_eq equals _ _ propagates_equals (x, y)).
  - intros lhs rhs Hin.
    by apply (propagates_ConcreteModuleTypeData_eq equals _ _ propagates_equals (x, y)).
  - intros lhs rhs Hin. by apply (propagates_equals lhs rhs (x, y)).
Qed.

Lemma constant_comparison_failure_propagates_witness :
  PyObject_RichCompareBool_EQ (PyRuntime := Example.python) 99%N 98%N = (-1)%Z ∧
  (99%N, 98%N) ∈ calls (Raw_equals (JT := Example.types) (Py := Example.python)
                                   Example.k99 Example.k98) ∧
  result (Raw_equals (JT := Example.types) (Py := Example.python)
                     Example.k99 Example.k98) = Throw error_already_set.
Proof.
  split; [reflexivity|]. split; [vm_compute; left|].
  refine (proj1 (proj2 (constant_comparison_failure_propagates
                          (JT := Example.types) (Py := Example.python)
                          99%N 98%N eq_refl)) Example.k99 Example.k98 _).
  vm_compute. left.
Defined.

(** ** Members that play no part in equality *)

Lemma height_same_modules (t t' : ConcreteModuleType) :
  modules_ (data_ t) = modules_ (data_ t') → height t = height t'.
Proof. destruct t, t'. simpl. by intros ->. Qed.

(** C9. [failedAttributes_] never influences equality: two comparisons whose
    operands differ at most in their [failedAttributes_] maps are the same
    run with the same answer, for builders and for finalized types, although
    the map is kept in the descriptor and [findFailedAttribute] reads it. *)
Theorem failedAttributes_do_not_influence_equality
    {JT : JitTypes} {Py : PyRuntime} (a a' b b' : RawConcreteModuleType)
    (Ha : same_except_failedAttributes (raw_data_ a) (raw_data_ a'))
    (Hb : same_except_failedAttributes (raw_data_ b) (raw_data_ b')) :
  Raw_equals a b = Raw_equals a' b' ∧
  (result (Raw_equals a a) = Ok true → result (Raw_equals a a') = Ok true) ∧
  (∀ T T' : ConcreteModuleType,
     same_except_failedAttributes (data_ T) (data_ T') →
     Raw_equals_finalized a T = Raw_equals_finalized a' T' ∧
     (∀ U U' : ConcreteModuleType,
        same_except_failedAttributes (data_ U) (data_ U') →
        jitType_ T = jitType_ T' → jitType_ U = jitType_ U' →
        equals T U = equals T' U')) ∧
  (∀ (name : string) (T : ConcreteModuleType),
     findFailedAttribute name T = failedAttributes_ (data_ T) !! name).
Proof.
  split; [|split; [|split]].
  - by apply ConcreteModuleTypeData_eq_failedAttributes.
  - intros Hself. unfold Raw_equals in *.
    by rewrite <- (ConcreteModuleTypeData_eq_failedAttributes
                     equals (raw_data_ a) (raw_data_ a) (raw_data_ a) (raw_data_ a')).
  - intros T T' HT. split.
    + by apply ConcreteModuleTypeData_eq_failedAttributes.
    + intros U U' HU HjT HjU. unfold equals.
      rewrite <- (height_same_modules T T') by apply HT.
      destruct (height_pos T) as [n ->]. simpl. rewrite HjT, HjU.
      case_bool_decide; [done|].
      by apply ConcreteModuleTypeData_eq_failedAttributes.
  - done.
Qed.

Lemma failedAttributes_do_not_influence_equality_witness :
  let a := Example.with_everything in
  let a' := addFailedAttribute "worse" "no type" Example.with_everything in
  same_except_failedAttributes (raw_data_ a) (raw_data_ a') ∧
  failedAttributes_ (raw_data_ a) ≠ failedAttributes_ (raw_data_ a') ∧
  result (Raw_equals (JT := Example.types) (Py := Example.python) a a') = Ok true.
Proof.
  intros a a'.
  assert (same_except_failedAttributes (raw_data_ a) (raw_data_ a')) as Hsame
    by (repeat split).
  split; [exact Hsame|]. split.
  - intros Heq. apply (f_equal (λ m, m !! "worse")) in Heq. vm_compute in Heq.
    discriminate Heq.
  - refine (proj1 (proj2 (failedAttributes_do_not_influence_equality
                            (JT := Example.types) (Py := Example.python)
                            a a' a a' Hsame Hsame)) _).
    vm_compute. reflexivity.
Defined.

(** ** The builder *)

Section BuilderFacts.
Context {JT : JitTypes} {Py : PyRuntime}.

Lemma emplace_present {V} (k : string) (v old : V) (m : gmap string V) :
  m !! k = Some old → emplace k v m = m.
Proof. intros H. unfold emplace. by rewrite H. Qed.

Lemma emplace_absent {V} (k : string) (v : V) (m : gmap string V) :
  m !! k = None → emplace k v m = <[k:=v]> m.
Proof. intros H. unfold emplace. by rewrite H. Qed.

Lemma lookup_emplace {V} (k : string) (v : V) (m : gmap string V) :
  emplace k v m !! k = Some (default v (m !! k)).
Proof.
  unfold emplace. destruct (m !! k) eqn:H; simpl; [done|].
  by rewrite lookup_insert_eq.
Qed.

Lemma lookup_emplace_ne {V} (k k' : string) (v : V) (m : gmap string V) :
  k ≠ k' → emplace k v m !! k' = m !! k'.
Proof.
  intros Hne. unfold emplace. destruct (m !! k); [done|].
  by rewrite lookup_insert_ne.
Qed.

Lemma addConstant_present self name old value :
  constants_ (raw_data_ self) !! name = Some old → addConstant name value self = self.
Proof.
  destruct self as [[]]. simpl. intros H. unfold addConstant. simpl.
  by rewrite (emplace_present _ _ old).
Qed.

Lemma addAttribute_present self name old ty isParameter :
  attributes_ (raw_data_ self) !! name = Some old → is_FunctionType ty = false →
  addAttribute name (Some ty) isParameter self = Ok self.
Proof.
  destruct self as [[]]. simpl. intros H Hty. unfold addAttribute. rewrite Hty.
  simpl. by rewrite (emplace_present _ _ old).
Qed.

Lemma addFunctionAttribute_present self name old ty pyFunction :
  functionAttributes_ (raw_data_ self) !! name = Some old →
  is_FunctionType ty = true →
  addFunctionAttribute name (Some ty) pyFunction self = Ok self.
Proof.
  destruct self as [[]]. simpl. intros H Hty. unfold addFunctionAttribute.
  rewrite Hty. simpl. by rewrite (emplace_present _ _ old).
Qed.

Lemma addOverload_present self name old names :
  overloads_ (raw_data_ self) !! name = Some old → addOverload name names self = self.
Proof.
  destruct self as [[]]. simpl. intros H. unfold addOverload. simpl.
  by rewrite (emplace_present _ _ old).
Qed.

Lemma addFailedAttribute_present self name old reason :
  failedAttributes_ (raw_data_ self) !! name = Some old →
  addFailedAttribute name reason self = self.
Proof.
  destruct self as [[]]. simpl. intros H. unfold addFailedAttribute. simpl.
  by rewrite (emplace_present _ _ old).
Qed.

End BuilderFacts.

(** C10. The first write wins in every keyed member category: with the name
    already present, [addConstant], [addOverload] and [addFailedAttribute]
    return the builder as it was, and so do [addAttribute] and
    [addFunctionAttribute] whenever they return at all (they do for a type
    that passes their assertions); [addModule] appends its entry whatever
    names are present. *)
Theorem first_write_wins
    {JT : JitTypes} {Py : PyRuntime} (self : RawConcreteModuleType) (name : string) :
  (∀ old value, constants_ (raw_data_ self) !! name = Some old →
     addConstant name value self = self) ∧
  (∀ old type isParameter, attributes_ (raw_data_ self) !! name = Some old →
     (∀ self', addAttribute name type isParameter self = Ok self' → self' = self) ∧
     (∀ ty, type = Some ty → is_FunctionType ty = false →
        addAttribute name type isParameter self = Ok self)) ∧
  (∀ old type pyFunction, functionAttributes_ (raw_data_ self) !! name = Some old →
     (∀ self', addFunctionAttribute name type pyFunction self = Ok self' →
        self' = self) ∧
     (∀ ty, type = Some ty → is_FunctionType ty = true →
        addFunctionAttribute name type pyFunction self = Ok self)) ∧
  (∀ old names, overloads_ (raw_data_ self) !! name = Some old →
     addOverload name names self = self) ∧
  (∀ old reason, failedAttributes_ (raw_data_ self) !! name = Some old →
     addFailedAttribute name reason self = self) ∧
  (∀ meta, modules_ (raw_data_ (addModule name meta self)) =
           modules_ (raw_data_ self) ++ [mkModuleInfo name meta None]).
Proof.
  split; [|split; [|split; [|split; [|split]]]].
  - intros old value H. by apply (addConstant_present _ _ old).
  - intros old type isParameter H. split.
    + intros self'. destruct type as [ty|]; [|done].
      destruct (is_FunctionType ty) eqn:Hty.
      * unfold addAttribute. by rewrite Hty.
      * rewrite (addAttribute_present _ _ old) by done. congruence.
    + intros ty -> Hty. by apply (addAttribute_present _ _ old).
  - intros old type pyFunction H. split.
    + intros self'. destruct type as [ty|]; [|done].
      destruct (is_FunctionType ty) eqn:Hty.
      * rewrite (addFunctionAttribute_present _ _ old) by done. congruence.
      * unfold addFunctionAttribute. by rewrite Hty.
    + intros ty -> Hty. by apply (addFunctionAttribute_present _ _ old).
  - intros old names H. by apply (addOverload_present _ _ old).
  - intros old reason H. by apply (addFailedAttribute_present _ _ old).
  - done.
Qed.

Lemma first_write_wins_witness :
  let self := Example.with_everything in
  addConstant "k" 2%N self = self ∧
  addAttribute (JT := Example.types) "w" (Some 2%N) false self = Ok self ∧
  addFunctionAttribute (JT := Example.types) "f" (Some 51%N) 71%N self = Ok self ∧
  addOverload "forward" ["forward__2"] self = self ∧
  addFailedAttribute "bad" "another reason" self = self ∧
  modules_ (raw_data_ (addModule "a" (Some Example.Y) self)) =
    [mkModuleInfo "a" (Some Example.X) None; mkModuleInfo "a" (Some Example.Y) None].
Proof.
  intros self.
  destruct (first_write_wins (JT := Example.types) (Py := Example.python) self "k")
    as (Hk & _).
  destruct (first_write_wins (JT := Example.types) (Py := Example.python) self "w")
    as (_ & Hw & _).
  destruct (first_write_wins (JT := Example.types) (Py := Example.python) self "f")
    as (_ & _ & Hf & _).
  destruct (first_write_wins (JT := Example.types) (Py := Example.python)
              self "forward") as (_ & _ & _ & Hfw & _).
  destruct (first_write_wins (JT := Example.types) (Py := Example.python) self "bad")
    as (_ & _ & _ & _ & Hbad & _).
  destruct (first_write_wins (JT := Example.types) (Py := Example.python) self "a")
    as (_ & _ & _ & _ & _ & Ha).
  split; [apply (Hk (mkConstant 1%N)); reflexivity|].
  split; [apply (proj2 (Hw (mkAttribute 1%N true) (Some 2%N) false eq_refl) 2%N);
          reflexivity|].
  split; [apply (proj2 (Hf (mkFunctionAttribute 50%N 70%N) (Some 51%N) 71%N eq_refl)
                       51%N); reflexivity|].
  split; [apply (Hfw ["forward__0"; "forward__1"]); reflexivity|].
  split; [apply (Hbad "could not convert"); reflexivity|].
  apply Ha.
Defined.


(** C6, as the code has it. [addAttribute] fails on a null type and on a
    function type. On any other type it succeeds and the attribute map is the
    old one after [emplace]: the entry of [name] is the new attribute, with
    its type unshaped, when the name was free, and the entry already there
    otherwise; no other entry and no function attribute changes.
    [addFunctionAttribute] succeeds on function types and only on them. *)
Theorem addAttribute_contract
    {JT : JitTypes} {Py : PyRuntime} (self : RawConcreteModuleType)
    (name : string) (isParameter : bool) :
  addAttribute name None isParameter self = Throw internal_assert_failed ∧
  (∀ ty, is_FunctionType ty = true →
     addAttribute name (Some ty) isParameter self = Throw internal_assert_failed) ∧
  (∀ ty, is_FunctionType ty = false →
     ∃ self', addAttribute name (Some ty) isParameter self = Ok self' ∧
       attributes_ (raw_data_ self') !! name =
         Some (default (mkAttribute (unshapedType ty) isParameter)
                       (attributes_ (raw_data_ self) !! name)) ∧
       (∀ other, name ≠ other →
          attributes_ (raw_data_ self') !! other =
          attributes_ (raw_data_ self) !! other) ∧
       functionAttributes_ (raw_data_ self') = functionAttributes_ (raw_data_ self)) ∧
  (∀ pyFunction,
     addFunctionAttribute name None pyFunction self = Throw internal_assert_failed) ∧
  (∀ ty pyFunction,
     (∃ self', addFunctionAttribute name (Some ty) pyFunction self = Ok self') ↔
     is_FunctionType ty = true).
Proof.
  split; [done|]. split; [|split; [|split]].
  - intros ty Hty. unfold addAttribute. by rewrite Hty.
  - intros ty Hty. unfold addAttribute. rewrite Hty. eexists. split; [done|].
    simpl. split; [apply lookup_emplace|]. split; [|done].
    intros other Hne. by apply lookup_emplace_ne.
  - done.
  - intros ty pyFunction. unfold addFunctionAttribute.
    destruct (is_FunctionType ty); split.
    + done.
    + eauto.
    + intros [self' H]. discriminate H.
    + intros H. discriminate H.
Qed.

Lemma addAttribute_contract_witness :
  addAttribute (JT := Example.types) "w" (Some 50%N) true Example.base
    = Throw internal_assert_failed ∧
  (∃ self', addAttribute (JT := Example.types) "w" (Some 1%N) true Example.base
              = Ok self' ∧
            attributes_ (raw_data_ self') !! "w" = Some (mkAttribute 1%N true)).
Proof.
  destruct (addAttribute_contract (JT := Example.types) (Py := Example.python)
              Example.base "w" true) as (_ & Hfn & Hok & _).
  split; [apply Hfn; reflexivity|].
  destruct (Hok 1%N eq_refl) as (self' & Hadd & Hlook & _).
  exists self'. split; [exact Hadd | exact Hlook].
Defined.

(** C6, as stated, fails: after [addAttribute("w", tensor, true)] the call
    [addAttribute("w", int, false)], on a type that is no function type,
    succeeds and records nothing; [w] is still the tensor parameter. *)
Lemma addAttribute_on_present_name_records_nothing :
  is_FunctionType (JitTypes := Example.types) 2%N = false ∧
  addAttribute (JT := Example.types) "w" (Some 1%N) true Example.base
    = Ok Example.w_tensor ∧
  addAttribute (JT := Example.types) "w" (Some 2%N) false Example.w_tensor
    = Ok Example.w_tensor ∧
  attributes_ (raw_data_ Example.w_tensor) !! "w" = Some (mkAttribute 1%N true) ∧
  attributes_ (raw_data_ Example.w_tensor) !! "w"
    ≠ Some (mkAttribute (unshapedType (JitTypes := Example.types) 2%N) false).
Proof. repeat split. intros H. discriminate H. Qed.

(** ** The shape of the comparison of descriptors *)

Section Shape.
Context {JT : JitTypes} {Py : PyRuntime}.

Lemma unordered_map_eq_pure {V} (value_eqb : V → V → bool) (lhs rhs : gmap string V) :
  unordered_map_eq (λ a b, mret (value_eqb a b)) lhs rhs
  = mret (unordered_map_eqb value_eqb lhs rhs).
Proof.
  unfold unordered_map_eq, unordered_map_eqb.
  destruct (size lhs =? size rhs); simpl; [|done].
  generalize (map_to_list lhs). intros l.
  induction l as [|[k v] l IH]; cbn [allM forallb fst snd]; [done|].
  destruct (rhs !! k) as [w|]; rewrite mret_bind; [|done].
  by destruct (value_eqb v w).
Qed.

Lemma unordered_map_eqb_lookup {V} (value_eqb : V → V → bool)
    (lhs rhs : gmap string V) k x :
  unordered_map_eqb value_eqb lhs rhs = true → lhs !! k = Some x →
  ∃ y, rhs !! k = Some y ∧ value_eqb x y = true.
Proof.
  unfold unordered_map_eqb. intros [_ Hall]%andb_true_iff Hk.
  rewrite forallb_forall in Hall.
  assert (In (k, x) (map_to_list lhs)) as Hin
    by by apply list_elem_of_In, elem_of_map_to_list.
  specialize (Hall _ Hin). simpl in Hall.
  destruct (rhs !! k) as [y|]; [eauto | discriminate Hall].
Qed.

(** The comparison, with the members that cannot fail gathered: the
    constants are the only ones to be compared through Python, and the
    submodules come last. *)
Lemma ConcreteModuleTypeData_eq_shape {M} (eqM : M → M → Comp bool)
    (lhs rhs : ConcreteModuleTypeData M) :
  ConcreteModuleTypeData_eq eqM lhs rhs =
  if isPoisoned_ lhs || isPoisoned_ rhs then mret false
  else if negb (py_is (pyClass_ lhs) (pyClass_ rhs) &&
                bool_decide (iterableModuleKind_ lhs = iterableModuleKind_ rhs))
  then mret false
  else
    c ← unordered_map_eq Constant_eq (constants_ lhs) (constants_ rhs);
    if c && unordered_map_eqb Attribute_eq (attributes_ lhs) (attributes_ rhs)
         && unordered_map_eqb (λ a b, bool_decide (a = b))
                              (overloads_ lhs) (overloads_ rhs)
         && unordered_map_eqb FunctionAttribute_eq
                              (functionAttributes_ lhs) (functionAttributes_ rhs)
    then vector_eq (ModuleInfo_eq eqM) (sort_by_name (modules_ lhs))
                   (sort_by_name (modules_ rhs))
    else mret false.
Proof.
  unfold ConcreteModuleTypeData_eq.
  destruct (isPoisoned_ lhs || isPoisoned_ rhs); [done|].
  rewrite !unordered_map_eq_pure.
  generalize (vector_eq (ModuleInfo_eq eqM) (sort_by_name (modules_ lhs))
                        (sort_by_name (modules_ rhs))).
  generalize (unordered_map_eq Constant_eq (constants_ lhs) (constants_ rhs)).
  generalize (unordered_map_eqb Attribute_eq (attributes_ lhs) (attributes_ rhs)).
  generalize (unordered_map_eqb (λ a b : list string, bool_decide (a = b))
                                (overloads_ lhs) (overloads_ rhs)).
  generalize (unordered_map_eqb FunctionAttribute_eq
                (functionAttributes_ lhs) (functionAttributes_ rhs)).
  generalize (py_is (pyClass_ lhs) (pyClass_ rhs)).
  generalize (bool_decide (iterableModuleKind_ lhs = iterableModuleKind_ rhs)).
  intros bk bc bf bo ba [cs [c|e|]] [vs v];
    destruct bk, bc, bf, bo, ba; try destruct c;
    cbn; rewrite ?app_nil_r; reflexivity.
Qed.

(** The comparison of constants ends with an answer or with the Python
    error. *)
Lemma allM_Constant_result (rhs : gmap string Constant) (l : list (string * Constant)) :
  (∃ b, result (allM (λ kv, match rhs !! kv.1 with
                            | None => mret false
                            | Some w => Constant_eq kv.2 w
                            end) l) = Ok b) ∨
  result (allM (λ kv, match rhs !! kv.1 with
                      | None => mret false
                      | Some w => Constant_eq kv.2 w
                      end) l) = Throw error_already_set.
Proof.
  induction l as [|[k v] l IH]; simpl; [by eauto|].
  rewrite result_bind. destruct (rhs !! k) as [w|]; simpl; [|by eauto].
  destruct (PyObject_RichCompareBool_EQ (v_ v) (v_ w) =? -1)%Z; [by right|].
  destruct (PyObject_RichCompareBool_EQ (v_ v) (v_ w) =? 1)%Z; [done | by eauto].
Qed.

Lemma constants_eq_result (lhs rhs : gmap string Constant) :
  (∃ b, result (unordered_map_eq Constant_eq lhs rhs) = Ok b) ∨
  result (unordered_map_eq Constant_eq lhs rhs) = Throw error_already_set.
Proof.
  unfold unordered_map_eq. destruct (negb _); [by eauto|].
  apply allM_Constant_result.
Qed.

End Shape.

(** C5. Function attributes are compared by the identity of the function
    object. Two descriptors that hold distinct function objects under one
    name never compare equal: the answer is [false] whenever the comparison
    of their constants gives an answer at all, and the Python error
    otherwise. Two entries that hold the same function object are equal
    whatever function types they store. *)
Theorem function_attributes_compared_by_identity
    {JT : JitTypes} {Py : PyRuntime} (lhs rhs : RawConcreteModuleType)
    (name : string) (f g : FunctionAttribute)
    (Hlhs : functionAttributes_ (raw_data_ lhs) !! name = Some f)
    (Hrhs : functionAttributes_ (raw_data_ rhs) !! name = Some g)
    (Hdistinct : pyFunction_ f ≠ pyFunction_ g) :
  FunctionAttribute_eq f g = false ∧
  result (Raw_equals lhs rhs) ≠ Ok true ∧
  (result (Raw_equals lhs rhs) = Ok false ∨
   result (Raw_equals lhs rhs) = Throw error_already_set) ∧
  (∀ b, result (unordered_map_eq Constant_eq (constants_ (raw_data_ lhs))
                                 (constants_ (raw_data_ rhs))) = Ok b →
        result (Raw_equals lhs rhs) = Ok false) ∧
  (∀ (ft1 ft2 : TypeRef) (h : PyObject),
     FunctionAttribute_eq (mkFunctionAttribute ft1 h) (mkFunctionAttribute ft2 h)
     = true).
Proof.
  assert (FunctionAttribute_eq f g = false) as Hfg.
  { unfold FunctionAttribute_eq, py_is. by apply N.eqb_neq. }
  assert (unordered_map_eqb FunctionAttribute_eq
            (functionAttributes_ (raw_data_ lhs))
            (functionAttributes_ (raw_data_ rhs)) = false) as Hmap.
  { destruct (unordered_map_eqb _ _ _) eqn:E; [|done].
    destruct (unordered_map_eqb_lookup _ _ _ _ _ E Hlhs) as (y & Hy & Heq).
    congruence. }
  assert (∀ r, result (unordered_map_eq Constant_eq (constants_ (raw_data_ lhs))
                                 (constants_ (raw_data_ rhs))) = r →
          result (Raw_equals lhs rhs) = Ok false ∨
          (result (Raw_equals lhs rhs) = Throw error_already_set ∧
           r = Throw error_already_set)) as Hcases.
  { intros r Hr. unfold Raw_equals. rewrite ConcreteModuleTypeData_eq_shape.
    destruct (_ || _); [by left|]. destruct (negb _); [by left|].
    rewrite result_bind, Hmap, Hr.
    destruct (constants_eq_result (constants_ (raw_data_ lhs))
                (constants_ (raw_data_ rhs))) as [[b Hb]|Hthrow].
    - rewrite Hr in Hb. rewrite Hb. left. by rewrite andb_false_r.
    - rewrite Hr in Hthrow. rewrite Hthrow. by right. }
  split; [done|]. split; [|split; [|split]].
  - destruct (Hcases _ eq_refl) as [H|[H _]]; rewrite H; discriminate.
  - destruct (Hcases _ eq_refl) as [H|[H _]]; eauto.
  - intros b Hb. destruct (Hcases _ Hb) as [H|[_ H]]; [done | discriminate H].
  - intros ft1 ft2 h. unfold FunctionAttribute_eq, py_is. simpl. apply N.eqb_refl.
Qed.

Lemma function_attributes_compared_by_identity_witness :
  addFunctionAttribute (JT := Example.types) "f" (Some 50%N) 70%N Example.base
    = Ok Example.f_70 ∧
  addFunctionAttribute (JT := Example.types) "f" (Some 50%N) 71%N Example.base
    = Ok Example.f_71 ∧
  result (Raw_equals (JT := Example.types) (Py := Example.python)
                     Example.f_70 Example.f_71) = Ok false.
Proof.
  split; [reflexivity|]. split; [reflexivity|].
  refine (proj1 (proj2 (proj2 (proj2
            (function_attributes_compared_by_identity
               (JT := Example.types) (Py := Example.python)
               Example.f_70 Example.f_71 "f"
               (mkFunctionAttribute 50%N 70%N) (mkFunctionAttribute 50%N 71%N)
               eq_refl eq_refl _)))) true _).
  - intros H. discriminate H.
  - vm_compute. reflexivity.
Defined.


(** ** Sorting the submodules by name *)

Section Sorting.
Context {M : Type}.
Implicit Types (x y z : ModuleInfo M) (l : list (ModuleInfo M)).

Lemma string_compare_as_OT (s t : string) :
  String.compare s t = String_as_OT.compare s t.
Proof.
  revert t. induction s as [|a s IH]; intros [|b t]; reflexivity.
Qed.

Lemma string_ltb_lt (s t : string) : String.ltb s t = true ↔ String_as_OT.lt s t.
Proof.
  unfold String.ltb, String_as_OT.lt. rewrite string_compare_as_OT.
  by destruct (String_as_OT.compare s t).
Qed.

Lemma string_ltb_asym (s t : string) : String.ltb s t = true → String.ltb t s = false.
Proof.
  unfold String.ltb. rewrite (String.compare_antisym t s).
  by destruct (String.compare s t).
Qed.

Lemma string_ltb_total (s t : string) :
  String.ltb s t = false → String.ltb t s = false → s = t.
Proof.
  unfold String.ltb. intros Hst Hts. apply String.compare_eq_iff.
  rewrite (String.compare_antisym t s) in Hts.
  by destruct (String.compare s t).
Qed.

Lemma string_ltb_trans (s t u : string) :
  String.ltb s t = true → String.ltb t u = true → String.ltb s u = true.
Proof.
  rewrite !string_ltb_lt. apply String_as_OT.lt_strorder.
Qed.

#[local] Instance name_le_trans : Transitive (@name_le M).
Proof.
  intros x y z Hxy Hyz. unfold name_le in *.
  destruct (String.ltb (name_ z) (name_ x)) eqn:Hzx; [|done].
  destruct (String.ltb (name_ y) (name_ x)) eqn:E1; [done|].
  destruct (String.ltb (name_ x) (name_ y)) eqn:E2.
  - (* z < x < y *) by rewrite (string_ltb_trans _ _ _ Hzx E2) in Hyz.
  - (* x = y *) rewrite (string_ltb_total _ _ E2 E1) in Hzx. congruence.
Qed.

Lemma insert_by_name_Permutation x l : insert_by_name x l ≡ₚ x :: l.
Proof.
  induction l as [|y l IH]; simpl; [done|].
  destruct (String.ltb (name_ y) (name_ x)); [|done].
  rewrite IH. apply perm_swap.
Qed.

Lemma sort_by_name_Permutation l : sort_by_name l ≡ₚ l.
Proof.
  induction l as [|x l IH]; simpl; [done|].
  unfold sort_by_name in *. by rewrite insert_by_name_Permutation, IH.
Qed.

Lemma length_sort_by_name l : length (sort_by_name l) = length l.
Proof. apply Permutation_length, sort_by_name_Permutation. Qed.

Lemma insert_by_name_sorted x l :
  StronglySorted name_le l → StronglySorted name_le (insert_by_name x l).
Proof.
  induction 1 as [|y l Hl IH Hy]; simpl.
  - by repeat constructor.
  - destruct (String.ltb (name_ y) (name_ x)) eqn:E.
    + constructor; [done|].
      rewrite insert_by_name_Permutation. constructor; [|done].
      by apply string_ltb_asym.
    + constructor; [by constructor|].
      constructor; [done|].
      eapply Forall_impl; [exact Hy|]. intros z Hz. by transitivity y.
Qed.

Lemma sort_by_name_sorted l : StronglySorted name_le (sort_by_name l).
Proof.
  induction l as [|x l IH]; simpl; [constructor|].
  by apply insert_by_name_sorted.
Qed.

Lemma same_name_same_entry l x y :
  NoDup (name_ <$> l) → x ∈ l → y ∈ l → name_ x = name_ y → x = y.
Proof.
  induction l as [|z l IH]; intros Hnd Hx Hy Hname; [by apply elem_of_nil in Hx|].
  apply NoDup_cons in Hnd as [Hz Hnd].
  apply elem_of_cons in Hx as [->|Hx]; apply elem_of_cons in Hy as [->|Hy].
  - done.
  - exfalso. apply Hz. rewrite Hname. by apply list_elem_of_fmap_2.
  - exfalso. apply Hz. rewrite <- Hname. by apply list_elem_of_fmap_2.
  - by apply IH.
Qed.

(** Two sequences with the same pairwise distinctly named entries are the
    same sequence once sorted. *)
Lemma sort_by_name_unique l1 l2 :
  l1 ≡ₚ l2 → NoDup (name_ <$> l1) → sort_by_name l1 = sort_by_name l2.
Proof.
  intros Hperm Hnd.
  apply (StronglySorted_unique_strong name_le).
  - intros x1 x2 Hx1 Hx2 H12 H21.
    rewrite sort_by_name_Permutation in Hx1.
    rewrite sort_by_name_Permutation, <- Hperm in Hx2.
    apply (same_name_same_entry l1); try done.
    by apply string_ltb_total.
  - apply sort_by_name_sorted.
  - apply sort_by_name_sorted.
  - by rewrite !sort_by_name_Permutation.
Qed.

End Sorting.

Section Submodules.
Context {JT : JitTypes} {Py : PyRuntime}.

Lemma ConcreteModuleTypeData_eq_sorted {M} (eqM : M → M → Comp bool)
    (a a' b b' : ConcreteModuleTypeData M) :
  same_except_modules a a' → same_except_modules b b' →
  sort_by_name (modules_ a) = sort_by_name (modules_ a') →
  sort_by_name (modules_ b) = sort_by_name (modules_ b') →
  ConcreteModuleTypeData_eq eqM a b = ConcreteModuleTypeData_eq eqM a' b'.
Proof.
  destruct a, a', b, b'. intros (?&?&?&?&?&?&?&?) (?&?&?&?&?&?&?&?) Ha Hb.
  unfold ConcreteModuleTypeData_eq. simpl in *. subst. by rewrite Ha, Hb.
Qed.

Lemma same_except_modules_refl {M} (a : ConcreteModuleTypeData M) :
  same_except_modules a a.
Proof. by repeat split. Qed.

(** The name of an entry plays no part in the comparison of two entries. *)
Lemma ModuleInfo_eq_ignores_names {M} (eqM : M → M → Comp bool)
    (n1 n2 n1' n2' : string) (m1 m2 : option M) (t1 t2 : TypePtr) :
  ModuleInfo_eq eqM (mkModuleInfo n1 m1 t1) (mkModuleInfo n2 m2 t2) =
  ModuleInfo_eq eqM (mkModuleInfo n1' m1 t1) (mkModuleInfo n2' m2 t2).
Proof. reflexivity. Qed.

End Submodules.

(** *** When a descriptor equals itself *)

Section Reflexivity.
Context {JT : JitTypes} {Py : PyRuntime}.

Lemma allM_all_true {A} (p : A → Comp bool) (l : list A) :
  (∀ x, x ∈ l → result (p x) = Ok true) → result (allM p l) = Ok true.
Proof.
  induction l as [|x l IH]; intros Hp; simpl; [done|].
  rewrite result_bind, (Hp x) by left. apply IH. intros y Hy. apply Hp. by right.
Qed.

Lemma constants_eq_refl (m : gmap string Constant) :
  (∀ k c, m !! k = Some c → PyObject_RichCompareBool_EQ (v_ c) (v_ c) = 1%Z) →
  result (unordered_map_eq Constant_eq m m) = Ok true.
Proof.
  intros Hself. unfold unordered_map_eq. rewrite Nat.eqb_refl. simpl.
  apply allM_all_true. intros [k c] Hin%elem_of_map_to_list. simpl.
  rewrite Hin. unfold Constant_eq. simpl. by rewrite (Hself k c).
Qed.

Lemma unordered_map_eqb_refl {V} (value_eqb : V → V → bool) (m : gmap string V) :
  (∀ k v, m !! k = Some v → value_eqb v v = true) →
  unordered_map_eqb value_eqb m m = true.
Proof.
  intros Hself. unfold unordered_map_eqb. rewrite Nat.eqb_refl. simpl.
  apply forallb_forall. intros [k v] Hin%list_elem_of_In%elem_of_map_to_list.
  simpl. rewrite Hin. by apply (Hself k).
Qed.

Lemma std_equal_refl {A} (elem_eq : A → A → Comp bool) (l : list A) :
  (∀ x, x ∈ l → result (elem_eq x x) = Ok true) →
  result (std_equal elem_eq l l) = Ok true.
Proof.
  induction l as [|x l IH]; intros He; simpl; [done|].
  rewrite result_bind, (He x) by left. apply IH. intros y Hy. apply He. by right.
Qed.

(** A descriptor equals itself when it is not poisoned, each of its constants
    equals itself in Python, each of its attribute types equals itself, and
    each of its submodule entries holds a finalized type or an interface type
    that equals itself. *)
Lemma ConcreteModuleTypeData_eq_refl (d : ConcreteModuleTypeData ConcreteModuleType) :
  isPoisoned_ d = false →
  (∀ k c, constants_ d !! k = Some c →
          PyObject_RichCompareBool_EQ (v_ c) (v_ c) = 1%Z) →
  (∀ k a, attributes_ d !! k = Some a → type_equal (type_ a) (type_ a) = true) →
  (∀ info, info ∈ modules_ d →
           is_Some (meta_ info) ∨
           ∃ t, mtype_ info = Some t ∧ type_equal t t = true) →
  result (ConcreteModuleTypeData_eq equals d d) = Ok true.
Proof.
  intros Hpoison Hconst Hattr Hmod.
  rewrite ConcreteModuleTypeData_eq_shape, Hpoison. simpl.
  unfold py_is. rewrite N.eqb_refl, bool_decide_eq_true_2 by done. simpl.
  rewrite result_bind, constants_eq_refl by done.
  rewrite !unordered_map_eqb_refl; simpl.
  - unfold vector_eq. rewrite Nat.eqb_refl. simpl.
    apply std_equal_refl. intros info Hin. rewrite elem_of_sort_by_name in Hin.
    unfold ModuleInfo_eq. destruct (Hmod info Hin) as [[m Hm]|(t & Ht & Heq)].
    + rewrite Hm. by rewrite equals_same_jitType.
    + destruct (meta_ info) as [m|]; [by rewrite equals_same_jitType|].
      by rewrite Ht, Heq.
  - intros k f _. unfold FunctionAttribute_eq, py_is. apply N.eqb_refl.
  - intros k v _. by apply bool_decide_eq_true_2.
  - intros k a Ha. unfold Attribute_eq. rewrite (Hattr k a Ha).
    by rewrite bool_decide_eq_true_2.
Qed.

End Reflexivity.

(** C1 does not hold of the code: the names at a position are not required
    to match. [operator==] on [ModuleInfo] never reads [name_], so whatever
    the names of two entries are, their comparison is the same. A builder that holds the finalized
    type [X] as submodule [a] and one that holds it as submodule [b] compare
    equal. *)
Theorem submodule_names_are_not_compared :
  (∀ (JT : JitTypes) (Py : PyRuntime) (n1 n2 n1' n2' : string)
     (m1 m2 : option ConcreteModuleType) (t1 t2 : TypePtr),
     ModuleInfo_eq equals (mkModuleInfo n1 m1 t1) (mkModuleInfo n2 m2 t2) =
     ModuleInfo_eq equals (mkModuleInfo n1' m1 t1) (mkModuleInfo n2' m2 t2)) ∧
  name_ <$> sort_by_name (modules_ (raw_data_ Example.X_as_a)) = ["a"] ∧
  name_ <$> sort_by_name (modules_ (raw_data_ Example.X_as_b)) = ["b"] ∧
  Raw_equals (JT := Example.types) (Py := Example.python)
             Example.X_as_a Example.X_as_b = mret true ∧
  Raw_equals (JT := Example.types) (Py := Example.python)
             Example.X_as_b Example.X_as_a = mret true.
Proof.
  split.
  - intros. apply ModuleInfo_eq_ignores_names.
  - repeat split.
Qed.

(** C7, as the code has it. For two descriptors that differ only in the
    insertion order of their submodules, and whose submodule names are
    pairwise distinct, the sorted sequences coincide; every comparison with a
    third descriptor is the same run with the same answer for both; and when
    the first descriptor equals itself, the two are equal, in either
    direction. The operands of a comparison are values, and the sorted
    sequences are local to it: [modules_] keeps its insertion order. *)
Theorem submodule_insertion_order_is_irrelevant
    {JT : JitTypes} {Py : PyRuntime} (D1 D2 : RawConcreteModuleType)
    (Hsame : same_except_modules (raw_data_ D1) (raw_data_ D2))
    (Hperm : modules_ (raw_data_ D1) ≡ₚ modules_ (raw_data_ D2))
    (Hnames : NoDup (name_ <$> modules_ (raw_data_ D1)))
    (Hself : result (Raw_equals D1 D1) = Ok true) :
  sort_by_name (modules_ (raw_data_ D1)) = sort_by_name (modules_ (raw_data_ D2)) ∧
  result (Raw_equals D1 D2) = Ok true ∧
  result (Raw_equals D2 D1) = Ok true ∧
  (∀ other : RawConcreteModuleType,
     Raw_equals D1 other = Raw_equals D2 other ∧
     Raw_equals other D1 = Raw_equals other D2) ∧
  (∀ other : ConcreteModuleType,
     Raw_equals_finalized D1 other = Raw_equals_finalized D2 other).
Proof.
  assert (sort_by_name (modules_ (raw_data_ D1))
          = sort_by_name (modules_ (raw_data_ D2))) as Hsort
    by by apply sort_by_name_unique.
  assert (∀ other : ConcreteModuleTypeData ConcreteModuleType,
            ConcreteModuleTypeData_eq equals (raw_data_ D1) other
            = ConcreteModuleTypeData_eq equals (raw_data_ D2) other) as Hl.
  { intros other. apply ConcreteModuleTypeData_eq_sorted;
      auto using same_except_modules_refl. }
  assert (∀ other : ConcreteModuleTypeData ConcreteModuleType,
            ConcreteModuleTypeData_eq equals other (raw_data_ D1)
            = ConcreteModuleTypeData_eq equals other (raw_data_ D2)) as Hr.
  { intros other. apply ConcreteModuleTypeData_eq_sorted;
      auto using same_except_modules_refl. }
  unfold Raw_equals, Raw_equals_finalized in *.
  split; [done|]. split; [by rewrite <- Hr|]. split; [by rewrite <- Hl|].
  split; [|done]. intros other. by rewrite Hl, Hr.
Qed.

Lemma submodule_insertion_order_is_irrelevant_witness :
  (name_ <$> modules_ (raw_data_ Example.ab) = ["a"; "b"] ∧
   name_ <$> modules_ (raw_data_ Example.ba) = ["b"; "a"]) ∧
  result (Raw_equals (JT := Example.types) (Py := Example.python)
                     Example.ab Example.ba) = Ok true.
Proof.
  split; [split; reflexivity|].
  refine (proj1 (proj2 (submodule_insertion_order_is_irrelevant
                          (JT := Example.types) (Py := Example.python)
                          Example.ab Example.ba _ _ _ _))).
  - repeat split.
  - apply perm_swap.
  - simpl. repeat constructor; simpl; rewrite ?list_elem_of_In; simpl;
      intuition discriminate.
  - vm_compute. reflexivity.
Defined.

(** C7, as stated, fails. With two submodules of one name the sort keeps the
    insertion order, and the two descriptors, each equal to itself, differ;
    and a poisoned descriptor differs from its reordering as from
    everything. *)
Lemma submodule_insertion_order_can_matter :
  (same_except_modules (raw_data_ Example.aXaY) (raw_data_ Example.aYaX) ∧
   modules_ (raw_data_ Example.aXaY) ≡ₚ modules_ (raw_data_ Example.aYaX) ∧
   result (Raw_equals (JT := Example.types) (Py := Example.python)
                      Example.aXaY Example.aXaY) = Ok true ∧
   result (Raw_equals (JT := Example.types) (Py := Example.python)
                      Example.aYaX Example.aYaX) = Ok true ∧
   result (Raw_equals (JT := Example.types) (Py := Example.python)
                      Example.aXaY Example.aYaX) = Ok false) ∧
  (same_except_modules (raw_data_ Example.poisoned_ab)
                       (raw_data_ Example.poisoned_ba) ∧
   modules_ (raw_data_ Example.poisoned_ab)
     ≡ₚ modules_ (raw_data_ Example.poisoned_ba) ∧
   result (Raw_equals (JT := Example.types) (Py := Example.python)
                      Example.poisoned_ab Example.poisoned_ba) = Ok false).
Proof.
  split.
  - split; [by repeat split|]. split; [apply perm_swap|]. by repeat split.
  - split; [by repeat split|]. split; [apply perm_swap|]. reflexivity.
Qed.

(** ** Building the class type *)

Section BuildFacts.
Context {JT : JitTypes} {Py : PyRuntime} {CU : Type} {Reg : TypeRegistry CU}.

Lemma canonical_name_no_prefix (data : ConcreteModuleTypeData ConcreteModuleType) :
  prefix (_qualified_name (pyClass_ data)) = "" →
  canonical_name data
  = mkQualifiedName "__torch__" (name (_qualified_name (pyClass_ data))).
Proof. intros H. unfold canonical_name. by rewrite H. Qed.

Lemma canonical_name_prefix (data : ConcreteModuleTypeData ConcreteModuleType) :
  prefix (_qualified_name (pyClass_ data)) ≠ "" →
  canonical_name data = _qualified_name (pyClass_ data).
Proof.
  intros H. unfold canonical_name.
  destruct (String.eqb_spec (prefix (_qualified_name (pyClass_ data))) ""); done.
Qed.

Lemma resolve_name_free (n : QualifiedName) (cu : CU) :
  get_class n cu = None → resolve_name n cu = (n, cu).
Proof. intros H. unfold resolve_name. by rewrite H. Qed.

Lemma resolve_name_taken (n : QualifiedName) (cu : CU) :
  get_class n cu ≠ None → resolve_name n cu = mangle n cu.
Proof. intros H. unfold resolve_name. by destruct (get_class n cu). Qed.

(** The name [resolve_name] answers is held by nobody. *)
Lemma resolve_name_fresh `{!TypeRegistryLaws CU} (n : QualifiedName) (cu : CU) :
  get_class (resolve_name n cu).1 (resolve_name n cu).2 = None.
Proof.
  unfold resolve_name. destruct (get_class n cu) eqn:E; simpl; [|done].
  apply get_class_mangle_fresh.
Qed.

Lemma resolve_name_other `{!TypeRegistryLaws CU} (n n' : QualifiedName) (cu : CU) :
  get_class n' (resolve_name n cu).2 = get_class n' cu.
Proof.
  unfold resolve_name. destruct (get_class n cu); simpl; [|done].
  apply get_class_mangle_other.
Qed.

Lemma ClassType_addAttribute_length cls fname type is_parameter heap :
  length (ClassType_addAttribute cls fname type is_parameter heap) = length heap.
Proof. unfold ClassType_addAttribute. apply length_alter. Qed.

Lemma ClassType_addAttribute_name cls fname type is_parameter heap i :
  cls_name <$> ClassType_addAttribute cls fname type is_parameter heap !! i
  = cls_name <$> heap !! i.
Proof.
  unfold ClassType_addAttribute.
  destruct (decide (N.to_nat cls = i)) as [<-|Hne].
  - rewrite list_lookup_alter_eq. by destruct (heap !! N.to_nat cls).
  - by rewrite list_lookup_alter_ne.
Qed.

Lemma foldl_addAttribute_invariant {A} (step : list ClassType → A → list ClassType)
    (l : list A) (heap : list ClassType) :
  (∀ h x, length (step h x) = length h) →
  (∀ h x i, cls_name <$> step h x !! i = cls_name <$> h !! i) →
  length (foldl step heap l) = length heap ∧
  ∀ i, cls_name <$> foldl step heap l !! i = cls_name <$> heap !! i.
Proof.
  intros Hlen Hname. revert heap. induction l as [|x l IH]; intros heap; simpl.
  - done.
  - destruct (IH (step heap x)) as [IH1 IH2]. split.
    + by rewrite IH1, Hlen.
    + intros i. by rewrite IH2, Hname.
Qed.

(** What [createTypeFromData] leaves behind: a new class object, at the
    first free address, which carries the resolved name and is registered
    under it. *)
Lemma createTypeFromData_spec (data : ConcreteModuleTypeData ConcreteModuleType)
    (st : JitState CU) :
  let cls := (createTypeFromData data st).1 in
  let st' := (createTypeFromData data st).2 in
  let resolved := resolve_name (canonical_name data) (python_cu st) in
  cls = N.of_nat (length (classes st)) ∧
  python_cu st' = register_type cls resolved.1 resolved.2 ∧
  length (classes st') = S (length (classes st)) ∧
  cls_name <$> classes st' !! N.to_nat cls = Some resolved.1 ∧
  (∀ i, i < length (classes st) →
        cls_name <$> classes st' !! i = cls_name <$> classes st !! i).
Proof.
  unfold createTypeFromData.
  destruct (resolve_name (canonical_name data) (python_cu st)) as [n cu1].
  cbn [ClassType_create fst snd python_cu classes].
  match goal with
  | |- context [foldl ?s2 (foldl ?s1 ?h ?l1) ?l2] =>
      destruct (foldl_addAttribute_invariant s1 l1 h) as [L1 N1];
      [intros; apply ClassType_addAttribute_length
      |intros; apply ClassType_addAttribute_name|];
      destruct (foldl_addAttribute_invariant s2 l2 (foldl s1 h l1)) as [L2 N2];
      [intros; apply ClassType_addAttribute_length
      |intros; apply ClassType_addAttribute_name|]
  end.
  split; [done|]. split; [done|].
  rewrite L2, L1, N2, N1, length_app, Nat2N.id. simpl.
  split; [lia|]. split.
  - by rewrite lookup_app_r, Nat.sub_diag by lia.
  - intros i Hi. rewrite N2, N1. by rewrite lookup_app_l.
Qed.

End BuildFacts.

(** ** The registry used in tests *)

Lemma string_length_append (s t : string) :
  String.length (String.append s t) = String.length s + String.length t.
Proof. induction s as [|a s IH]; simpl; [done|]. by rewrite IH. Qed.

Lemma fresh_prefix_longer (p : string) (cu : Example.FakeRegistry) :
  0 < String.length (Example.fresh_prefix p cu) ∧
  ∀ e, e ∈ cu → String.length (prefix e.1) < String.length (Example.fresh_prefix p cu).
Proof.
  induction cu as [|e0 cu [IH0 IH]]; simpl.
  - split; [lia|]. intros e He. by apply elem_of_nil in He.
  - rewrite string_length_append. split; [lia|].
    intros e [->|He]%elem_of_cons; [lia|]. specialize (IH e He). lia.
Qed.

Lemma fake_get_class_None (n : QualifiedName) (cu : Example.FakeRegistry) :
  (∀ e, e ∈ cu → e.1 ≠ n) → get_class n cu = None.
Proof.
  intros Hne. simpl. induction cu as [|e cu IH]; simpl; [done|].
  rewrite bool_decide_eq_false_2 by (apply Hne; left).
  apply IH. intros e' He'. apply Hne. by right.
Qed.

#[global] Instance fake_registry_laws : TypeRegistryLaws Example.FakeRegistry.
Proof.
  split.
  - intros cls n cu. simpl. by rewrite bool_decide_eq_true_2.
  - intros cls n n' cu Hne. simpl. by rewrite bool_decide_eq_false_2.
  - intros n cu. cbn [mangle Example.fake_registry fst snd].
    apply fake_get_class_None. intros e He Heq.
    destruct (fresh_prefix_longer (prefix n) cu) as [_ Hlong].
    specialize (Hlong e He). rewrite Heq in Hlong. simpl in Hlong. lia.
  - done.
Qed.

Section BuildTwice.
Context {JT : JitTypes} {Py : PyRuntime} {CU : Type} {Reg : TypeRegistry CU}.

Lemma build_unfold (self : RawConcreteModuleType) (st : JitState CU) :
  build self st =
  (mkConcreteModuleType (raw_data_ self)
                        (Some (createTypeFromData (raw_data_ self) st).1),
   (createTypeFromData (raw_data_ self) st).2).
Proof.
  unfold build, ConcreteModuleType_new.
  by destruct (createTypeFromData (raw_data_ self) st).
Qed.

End BuildTwice.

(** C8. [build] starts from the qualified name of the Python class, put into
    [__torch__] when it has no prefix, takes a mangled name instead when the
    registry holds a class of that name, and registers the new class under
    the name so resolved. Hence, of two descriptors with the same canonical
    name built one after the other, the second is registered under the
    mangled name, the two registered names differ, the registry maps each of
    them to the class of its own finalized type, and these are two class
    objects. *)
Theorem build_mangles_on_collision
    {JT : JitTypes} {Py : PyRuntime} {CU : Type} {Reg : TypeRegistry CU}
    {Laws : TypeRegistryLaws CU}
    (D1 D2 : RawConcreteModuleType) (st0 : JitState CU)
    (Hcollide : canonical_name (raw_data_ D1) = canonical_name (raw_data_ D2)) :
  let T1 := (build D1 st0).1 in
  let st1 := (build D1 st0).2 in
  let T2 := (build D2 st1).1 in
  let st2 := (build D2 st1).2 in
  let n1 := (resolve_name (canonical_name (raw_data_ D1)) (python_cu st0)).1 in
  let n2 := (resolve_name (canonical_name (raw_data_ D2)) (python_cu st1)).1 in
  (prefix (_qualified_name (pyClass_ (raw_data_ D1))) = "" →
   canonical_name (raw_data_ D1)
   = mkQualifiedName "__torch__"
                     (name (_qualified_name (pyClass_ (raw_data_ D1))))) ∧
  (prefix (_qualified_name (pyClass_ (raw_data_ D1))) ≠ "" →
   canonical_name (raw_data_ D1) = _qualified_name (pyClass_ (raw_data_ D1))) ∧
  (get_class (canonical_name (raw_data_ D1)) (python_cu st0) = None →
   n1 = canonical_name (raw_data_ D1)) ∧
  (get_class (canonical_name (raw_data_ D1)) (python_cu st0) ≠ None →
   n1 = (mangle (canonical_name (raw_data_ D1)) (python_cu st0)).1) ∧
  n2 = (mangle (canonical_name (raw_data_ D2)) (python_cu st1)).1 ∧
  n1 ≠ n2 ∧
  data_ T1 = raw_data_ D1 ∧ data_ T2 = raw_data_ D2 ∧
  ∃ p1 p2 : TypeRef,
    jitType_ T1 = Some p1 ∧ jitType_ T2 = Some p2 ∧ p1 ≠ p2 ∧
    get_class n1 (python_cu st2) = Some p1 ∧
    get_class n2 (python_cu st2) = Some p2 ∧
    cls_name <$> classes st2 !! N.to_nat p1 = Some n1 ∧
    cls_name <$> classes st2 !! N.to_nat p2 = Some n2.
Proof.
  intros T1 st1 T2 st2 n1 n2. subst T1 T2 st2 n1 n2 st1.
  rewrite !build_unfold. cbn [fst snd data_ jitType_].
  set (c1 := canonical_name (raw_data_ D1)) in *.
  set (c2 := canonical_name (raw_data_ D2)) in *.
  set (st1 := (createTypeFromData (raw_data_ D1) st0).2) in *.
  set (n1 := (resolve_name c1 (python_cu st0)).1).
  set (n2 := (resolve_name c2 (python_cu st1)).1).
  destruct (createTypeFromData_spec (raw_data_ D1) st0)
    as (Hp1 & Hcu1 & Hlen1 & Hname1 & _).
  destruct (createTypeFromData_spec (raw_data_ D2) st1)
    as (Hp2 & Hcu2 & Hlen2 & Hname2 & Hkeep2).
  cbn zeta in *. fold c1 c2 st1 in Hp1, Hcu1, Hlen1, Hname1, Hp2, Hcu2, Hlen2,
    Hname2, Hkeep2. fold n1 in Hcu1, Hname1.
  set (p1 := (createTypeFromData (raw_data_ D1) st0).1) in *.
  set (p2 := (createTypeFromData (raw_data_ D2) st1).1) in *.
  (* the first class is found under its name *)
  assert (get_class n1 (python_cu st1) = Some p1) as Hget1
    by (rewrite Hcu1; apply get_class_register_eq).
  (* so the canonical name is taken when the second build asks *)
  assert (get_class c2 (python_cu st1) ≠ None) as Htaken.
  { rewrite <- Hcollide. destruct (decide (n1 = c1)) as [Heq|Hne];
      [rewrite <- Heq; congruence|].
    rewrite Hcu1, get_class_register_ne, resolve_name_other by done.
    intros Hfree. apply Hne. unfold n1. by rewrite resolve_name_free. }
  assert (n2 = (mangle c2 (python_cu st1)).1) as Hn2
    by (unfold n2; by rewrite resolve_name_taken).
  assert (n1 ≠ n2) as Hdiff.
  { intros Heq.
    pose proof (resolve_name_fresh c2 (python_cu st1)) as Hfresh.
    fold n2 in Hfresh. rewrite <- Heq, resolve_name_other in Hfresh. congruence. }
  split; [apply canonical_name_no_prefix|].
  split; [apply canonical_name_prefix|].
  split; [intros H; unfold n1; by rewrite resolve_name_free|].
  split; [intros H; unfold n1; by rewrite resolve_name_taken|].
  split; [done|]. split; [done|]. split; [done|]. split; [done|].
  exists p1, p2. split; [done|]. split; [done|].
  split; [rewrite Hp1, Hp2, Hlen1; lia|].
  fold n2 in Hcu2, Hname2.
  split; [|split; [|split]].
  - rewrite Hcu2, get_class_register_ne, resolve_name_other by done. done.
  - rewrite Hcu2. apply get_class_register_eq.
  - rewrite Hkeep2; [done|]. rewrite Hp1, Hlen1, Nat2N.id. lia.
  - done.
Qed.

Lemma build_mangles_on_collision_witness :
  let T1 := (build (Reg := Example.fake_registry) (Py := Example.python)
                   Example.base Example.empty_state).1 in
  let st1 := (build (Reg := Example.fake_registry) (Py := Example.python)
                    Example.base Example.empty_state).2 in
  let T2 := (build (Py := Example.python) Example.k99 st1).1 in
  let st2 := (build (Py := Example.python) Example.k99 st1).2 in
  canonical_name (Py := Example.python) (raw_data_ Example.base)
    = canonical_name (Py := Example.python) (raw_data_ Example.k99) ∧
  ∃ p1 p2 : TypeRef,
    jitType_ T1 = Some p1 ∧ jitType_ T2 = Some p2 ∧ p1 ≠ p2 ∧
    get_class (mkQualifiedName "__torch__" "M") (python_cu st2) = Some p1 ∧
    (∃ n2, n2 ≠ mkQualifiedName "__torch__" "M" ∧
           get_class n2 (python_cu st2) = Some p2).
Proof.
  intros T1 st1 T2 st2. split; [reflexivity|].
  destruct (build_mangles_on_collision
              (JT := Example.types) (Py := Example.python)
              (Reg := Example.fake_registry)
              Example.base Example.k99 Example.empty_state eq_refl)
    as (_ & _ & _ & _ & _ & Hdiff & _ & _ & p1 & p2 & H1 & H2 & Hp & G1 & G2 & _).
  exists p1, p2. split; [exact H1|]. split; [exact H2|]. split; [exact Hp|].
  split; [exact G1|]. eexists. split; [|exact G2].
  intros Heq. apply Hdiff. symmetry. exact Heq.
Defined.


(** * Further properties of the comparison *)

Section EqualityInversion.
Context {JT : JitTypes} {Py : PyRuntime}.

Lemma allM_true_inv {A} (p : A → Comp bool) (l : list A) :
  result (allM p l) = Ok true → ∀ x, x ∈ l → result (p x) = Ok true.
Proof.
  induction l as [|x l IH]; simpl; intros Hall y Hy; [by apply elem_of_nil in Hy|].
  rewrite result_bind in Hall.
  destruct (result (p x)) as [[]| |] eqn:Hx; try discriminate Hall.
  apply elem_of_cons in Hy as [->|Hy]; [done | by apply IH].
Qed.

Lemma unordered_map_eq_true_inv {V} (value_eq : V → V → Comp bool)
    (lhs rhs : gmap string V) :
  result (unordered_map_eq value_eq lhs rhs) = Ok true →
  size lhs = size rhs ∧
  ∀ k v, lhs !! k = Some v → ∃ w, rhs !! k = Some w ∧ result (value_eq v w) = Ok true.
Proof.
  unfold unordered_map_eq. destruct (size lhs =? size rhs) eqn:Hsize; simpl;
    [|discriminate].
  intros Hall. split; [by apply Nat.eqb_eq|]. intros k v Hk.
  pose proof (allM_true_inv _ _ Hall (k, v)) as Hkv. simpl in Hkv.
  destruct (rhs !! k) as [w|].
  - exists w. split; [done|]. apply Hkv. by apply elem_of_map_to_list.
  - exfalso. assert (result (mret false : Comp bool) = Ok true) as Habs
      by (apply Hkv; by apply elem_of_map_to_list).
    discriminate Habs.
Qed.


(** Two maps of the same size, one of which has every key of the other, have
    the same keys. *)
Lemma same_size_same_keys {V W} (lhs : gmap string V) (rhs : gmap string W) :
  size lhs = size rhs →
  (∀ k, is_Some (lhs !! k) → is_Some (rhs !! k)) →
  dom lhs =@{gset string} dom rhs.
Proof.
  intros Hsize Hincl. apply set_subseteq_size_eq.
  - intros k. rewrite !elem_of_dom. apply Hincl.
  - rewrite !size_dom. lia.
Qed.

Lemma std_equal_true_inv {A} (elem_eq : A → A → Comp bool) (l1 l2 : list A) :
  length l1 = length l2 → result (std_equal elem_eq l1 l2) = Ok true →
  Forall2 (λ x y, result (elem_eq x y) = Ok true) l1 l2.
Proof.
  revert l2. induction l1 as [|x l1 IH]; intros [|y l2] Hlen Hall;
    simpl in *; try discriminate Hlen; [constructor|].
  rewrite result_bind in Hall.
  destruct (result (elem_eq x y)) as [[]| |] eqn:Hxy; try discriminate Hall.
  constructor; [done|]. apply IH; [lia | done].
Qed.

(** What the answer [true] takes. *)
Lemma ConcreteModuleTypeData_eq_true_inv {M} (eqM : M → M → Comp bool)
    (lhs rhs : ConcreteModuleTypeData M) :
  result (ConcreteModuleTypeData_eq eqM lhs rhs) = Ok true →
  isPoisoned_ lhs = false ∧ isPoisoned_ rhs = false ∧
  py_is (pyClass_ lhs) (pyClass_ rhs) = true ∧
  iterableModuleKind_ lhs = iterableModuleKind_ rhs ∧
  result (unordered_map_eq Constant_eq (constants_ lhs) (constants_ rhs)) = Ok true ∧
  unordered_map_eqb Attribute_eq (attributes_ lhs) (attributes_ rhs) = true ∧
  unordered_map_eqb (λ a b, bool_decide (a = b))
                    (overloads_ lhs) (overloads_ rhs) = true ∧
  unordered_map_eqb FunctionAttribute_eq
                    (functionAttributes_ lhs) (functionAttributes_ rhs) = true ∧
  result (vector_eq (ModuleInfo_eq eqM) (sort_by_name (modules_ lhs))
                    (sort_by_name (modules_ rhs))) = Ok true.
Proof.
  rewrite ConcreteModuleTypeData_eq_shape.
  destruct (isPoisoned_ lhs), (isPoisoned_ rhs); simpl; try discriminate.
  destruct (py_is _ _); simpl; [|discriminate].
  case_bool_decide; simpl; [|discriminate].
  rewrite result_bind.
  destruct (result (unordered_map_eq Constant_eq _ _)) as [[]| |];
    try discriminate; simpl.
  destruct (unordered_map_eqb Attribute_eq _ _); simpl; [|discriminate].
  destruct (unordered_map_eqb _ (overloads_ lhs) _); simpl; [|discriminate].
  destruct (unordered_map_eqb FunctionAttribute_eq _ _); simpl; [|discriminate].
  done.
Qed.


End EqualityInversion.

(** X1. The cheap checks come first: two descriptors of different Python
    classes, or of different iterable kinds, compare unequal, and no constant
    is compared on the way; so do two finalized types that hold different
    class type objects. *)
Theorem different_class_or_kind_is_unequal
    {JT : JitTypes} {Py : PyRuntime}
    (lhs rhs : ConcreteModuleTypeData ConcreteModuleType)
    (Hdiffer : pyClass_ lhs ≠ pyClass_ rhs ∨
               iterableModuleKind_ lhs ≠ iterableModuleKind_ rhs) :
  ConcreteModuleTypeData_eq equals lhs rhs = mret false ∧
  Raw_equals (mkRaw lhs) (mkRaw rhs) = mret false ∧
  (∀ jl jr : TypePtr,
     Raw_equals_finalized (mkRaw lhs) (mkConcreteModuleType rhs jr) = mret false ∧
     (jl ≠ jr →
      equals (mkConcreteModuleType lhs jl) (mkConcreteModuleType rhs jr)
      = mret false)).
Proof.
  assert (ConcreteModuleTypeData_eq equals lhs rhs = mret false) as Hdata.
  { rewrite ConcreteModuleTypeData_eq_shape. destruct (_ || _); [done|].
    destruct Hdiffer as [Hclass|Hkind].
    - unfold py_is. by rewrite (proj2 (N.eqb_neq _ _) Hclass).
    - by rewrite (bool_decide_eq_false_2 _ Hkind), andb_false_r. }
  split; [done|]. split; [done|]. intros jl jr. split; [done|].
  intros Hjit. rewrite equals_unfold. simpl. by rewrite bool_decide_eq_false_2.
Qed.

Lemma different_class_or_kind_is_unequal_witness :
  Raw_equals (JT := Example.types) (Py := Example.python)
             Example.base Example.other_class = mret false ∧
  Raw_equals (JT := Example.types) (Py := Example.python)
             Example.base Example.as_list = mret false.
Proof.
  split.
  - refine (proj1 (proj2 (different_class_or_kind_is_unequal
                            (JT := Example.types) (Py := Example.python)
                            (raw_data_ Example.base)
                            (raw_data_ Example.other_class) _))).
    left. intros H. discriminate H.
  - refine (proj1 (proj2 (different_class_or_kind_is_unequal
                            (JT := Example.types) (Py := Example.python)
                            (raw_data_ Example.base)
                            (raw_data_ Example.as_list) _))).
    right. intros H. discriminate H.
Defined.



Section SubmoduleInversion.
Context {JT : JitTypes} {Py : PyRuntime}.

(** What makes two submodule entries equal, as the code decides it: both
    hold finalized types, which are equal; or, failing that, both hold
    interface types, which are equal. *)
Lemma ModuleInfo_eq_true_inv {M} (eqM : M → M → Comp bool) (x y : ModuleInfo M) :
  result (ModuleInfo_eq eqM x y) = Ok true →
  match meta_ x, meta_ y with
  | Some l, Some r => result (eqM l r) = Ok true
  | _, _ => ∃ s t, mtype_ x = Some s ∧ mtype_ y = Some t ∧ type_equal s t = true
  end.
Proof.
  unfold ModuleInfo_eq.
  destruct (meta_ x), (meta_ y); try done;
    destruct (mtype_ x) as [s|], (mtype_ y) as [t|]; try discriminate;
    intros H; injection H as H; eauto.
Qed.

Lemma modules_eq_true_inv {M} (eqM : M → M → Comp bool) (l1 l2 : list (ModuleInfo M)) :
  result (vector_eq (ModuleInfo_eq eqM) (sort_by_name l1) (sort_by_name l2))
  = Ok true →
  length l1 = length l2 ∧
  Forall2 (λ x y, result (ModuleInfo_eq eqM x y) = Ok true)
          (sort_by_name l1) (sort_by_name l2).
Proof.
  unfold vector_eq.
  destruct (length (sort_by_name l1) =? length (sort_by_name l2)) eqn:Hlen;
    simpl; [|discriminate].
  apply Nat.eqb_eq in Hlen. intros Hall. split.
  - by rewrite !length_sort_by_name in Hlen.
  - by apply std_equal_true_inv.
Qed.

Lemma Forall2_elem_of_l {A B} (P : A → B → Prop) (l : list A) (k : list B) x :
  Forall2 P l k → x ∈ l → ∃ y, y ∈ k ∧ P x y.
Proof.
  induction 1 as [|a b l k Hab _ IH]; intros Hx; [by apply elem_of_nil in Hx|].
  apply elem_of_cons in Hx as [->|Hx].
  - exists b. split; [left | done].
  - destruct (IH Hx) as (y & Hy & HP). exists y. split; [by right | done].
Qed.

Lemma Forall2_elem_of_r {A B} (P : A → B → Prop) (l : list A) (k : list B) y :
  Forall2 P l k → y ∈ k → ∃ x, x ∈ l ∧ P x y.
Proof.
  induction 1 as [|a b l k Hab _ IH]; intros Hy; [by apply elem_of_nil in Hy|].
  apply elem_of_cons in Hy as [->|Hy].
  - exists a. split; [left | done].
  - destruct (IH Hy) as (x & Hx & HP). exists x. split; [by right | done].
Qed.

(** An entry that holds neither a finalized type nor an interface type is
    equal to no entry. *)
Lemma ModuleInfo_eq_null {M} (eqM : M → M → Comp bool) (x y : ModuleInfo M) :
  (meta_ x = None ∧ mtype_ x = None) ∨ (meta_ y = None ∧ mtype_ y = None) →
  ModuleInfo_eq eqM x y = mret false.
Proof.
  unfold ModuleInfo_eq. intros [[-> ->]|[-> ->]]; [done|].
  destruct (meta_ x); by destruct (mtype_ x).
Qed.

End SubmoduleInversion.

(** X3. What the answer [true] takes of the submodules: both descriptors
    have the same number of entries, and the entries at each position of the
    two sorted sequences either both hold finalized types, which are equal,
    or else both hold interface types, which are equal. An entry with a
    finalized type never matches one with an interface type only. *)
Theorem equal_descriptors_agree_on_submodules
    {JT : JitTypes} {Py : PyRuntime} (a b : RawConcreteModuleType)
    (Hequal : result (Raw_equals a b) = Ok true) :
  length (modules_ (raw_data_ a)) = length (modules_ (raw_data_ b)) ∧
  Forall2 (λ x y,
             match meta_ x, meta_ y with
             | Some l, Some r => result (equals l r) = Ok true
             | _, _ => ∃ s t, mtype_ x = Some s ∧ mtype_ y = Some t ∧
                              type_equal s t = true
             end)
          (sort_by_name (modules_ (raw_data_ a)))
          (sort_by_name (modules_ (raw_data_ b))) ∧
  (∀ x y, meta_ x ≠ None → mtype_ x = None → meta_ y = None →
          ModuleInfo_eq equals x y = mret false ∧
          ModuleInfo_eq equals y x = mret false).
Proof.
  apply ConcreteModuleTypeData_eq_true_inv in Hequal
    as (_ & _ & _ & _ & _ & _ & _ & _ & Hmod).
  apply modules_eq_true_inv in Hmod as [Hlen Hall].
  split; [done|]. split.
  - eapply Forall2_impl; [exact Hall|]. intros x y.
    apply ModuleInfo_eq_true_inv.
  - intros x y Hx Ht Hy. unfold ModuleInfo_eq. rewrite Ht, Hy.
    destruct (meta_ x); [|done]. split; [done|]. by destruct (mtype_ y).
Qed.

Lemma equal_descriptors_agree_on_submodules_witness :
  result (Raw_equals (JT := Example.types) (Py := Example.python)
                     Example.ab Example.ba) = Ok true ∧
  length (modules_ (raw_data_ Example.ab)) = length (modules_ (raw_data_ Example.ba)).
Proof.
  assert (result (Raw_equals (JT := Example.types) (Py := Example.python)
                             Example.ab Example.ba) = Ok true) as Hequal
    by (vm_compute; reflexivity).
  split; [exact Hequal|].
  exact (proj1 (equal_descriptors_agree_on_submodules
                  (JT := Example.types) (Py := Example.python)
                  Example.ab Example.ba Hequal)).
Defined.

(** X4. A submodule entry made by [addModule(name, nullptr)] holds neither a
    finalized type nor an interface type, and such an entry is equal to
    nothing: a descriptor that contains one never compares equal, on either
    side, not even with itself. *)
Theorem null_submodule_is_never_equal
    {JT : JitTypes} {Py : PyRuntime} (a : RawConcreteModuleType)
    (info : ModuleInfo ConcreteModuleType)
    (Hin : info ∈ modules_ (raw_data_ a))
    (Hmeta : meta_ info = None) (Htype : mtype_ info = None) :
  result (Raw_equals a a) ≠ Ok true ∧
  (∀ b : RawConcreteModuleType,
     result (Raw_equals a b) ≠ Ok true ∧ result (Raw_equals b a) ≠ Ok true) ∧
  (∀ T : ConcreteModuleType, result (Raw_equals_finalized a T) ≠ Ok true).
Proof.
  assert (∀ other : ConcreteModuleTypeData ConcreteModuleType,
            result (ConcreteModuleTypeData_eq equals (raw_data_ a) other)
            ≠ Ok true) as Hl.
  { intros other Hequal.
    apply ConcreteModuleTypeData_eq_true_inv in Hequal
      as (_ & _ & _ & _ & _ & _ & _ & _ & Hmod).
    apply modules_eq_true_inv in Hmod as [_ Hall].
    destruct (Forall2_elem_of_l _ _ _ info Hall) as (y & _ & Hy).
    { by apply elem_of_sort_by_name. }
    rewrite ModuleInfo_eq_null in Hy by (left; done). discriminate Hy. }
  assert (∀ other : ConcreteModuleTypeData ConcreteModuleType,
            result (ConcreteModuleTypeData_eq equals other (raw_data_ a))
            ≠ Ok true) as Hr.
  { intros other Hequal.
    apply ConcreteModuleTypeData_eq_true_inv in Hequal
      as (_ & _ & _ & _ & _ & _ & _ & _ & Hmod).
    apply modules_eq_true_inv in Hmod as [_ Hall].
    destruct (Forall2_elem_of_r _ _ _ info Hall) as (x & _ & Hx).
    { by apply elem_of_sort_by_name. }
    rewrite ModuleInfo_eq_null in Hx by (right; done). discriminate Hx. }
  unfold Raw_equals, Raw_equals_finalized. split; [apply Hl|].
  split; [|intros T; apply Hl]. intros b. split; [apply Hl | apply Hr].
Qed.

Lemma null_submodule_is_never_equal_witness :
  modules_ (raw_data_ Example.null_submodule) = [mkModuleInfo "n" None None] ∧
  result (Raw_equals (JT := Example.types) (Py := Example.python)
                     Example.null_submodule Example.null_submodule) ≠ Ok true.
Proof.
  split; [reflexivity|].
  refine (proj1 (null_submodule_is_never_equal
                   (JT := Example.types) (Py := Example.python)
                   Example.null_submodule (mkModuleInfo "n" None None)
                   _ eq_refl eq_refl)).
  simpl. left.
Defined.



(** X6. When a descriptor equals itself, and hence any copy of it built
    independently with the same members: it is not poisoned, each of its
    constants equals itself in Python, each of its attribute types equals
    itself, and each of its submodule entries holds a finalized type or an
    interface type that equals itself. Then the builder equals itself and
    every finalized type that carries the same descriptor. *)
Theorem descriptor_equals_its_copy
    {JT : JitTypes} {Py : PyRuntime} (self : RawConcreteModuleType)
    (Hnot_poisoned : isPoisoned_ (raw_data_ self) = false)
    (Hconstants : ∀ k c, constants_ (raw_data_ self) !! k = Some c →
                         PyObject_RichCompareBool_EQ (v_ c) (v_ c) = 1%Z)
    (Hattributes : ∀ k a, attributes_ (raw_data_ self) !! k = Some a →
                          type_equal (type_ a) (type_ a) = true)
    (Hmodules : ∀ info, info ∈ modules_ (raw_data_ self) →
                        is_Some (meta_ info) ∨
                        ∃ t, mtype_ info = Some t ∧ type_equal t t = true) :
  result (Raw_equals self self) = Ok true ∧
  (∀ T : ConcreteModuleType, data_ T = raw_data_ self →
     result (Raw_equals_finalized self T) = Ok true ∧
     (∀ U : ConcreteModuleType, data_ U = raw_data_ self →
        result (equals T U) = Ok true)).
Proof.
  pose proof (ConcreteModuleTypeData_eq_refl (raw_data_ self)
                Hnot_poisoned Hconstants Hattributes Hmodules) as Hrefl.
  split; [done|]. intros T HT. unfold Raw_equals_finalized. rewrite HT.
  split; [done|]. intros U HU. rewrite equals_unfold, HT, HU.
  by case_bool_decide.
Qed.

Lemma descriptor_equals_its_copy_witness :
  result (Raw_equals (JT := Example.types) (Py := Example.python)
                     Example.with_everything Example.with_everything) = Ok true.
Proof.
  refine (proj1 (descriptor_equals_its_copy
                   (JT := Example.types) (Py := Example.python)
                   Example.with_everything eq_refl _ _ _)).
  - intros k c H.
    change (({["k" := mkConstant 1%N]} : gmap string Constant) !! k = Some c) in H.
    apply lookup_singleton_Some in H as [_ <-]. reflexivity.
  - intros k a H.
    change (({["w" := mkAttribute 1%N true]} : gmap string Attribute) !! k
            = Some a) in H.
    apply lookup_singleton_Some in H as [_ <-]. reflexivity.
  - intros info Hin. left. simpl in Hin.
    apply list_elem_of_singleton in Hin as ->. simpl. by eexists.
Defined.

(** * Further properties of the builder *)

Section CallFacts.
Context {JT : JitTypes} {Py : PyRuntime}.

Lemma emplace_keeps {V} (k k' : string) (v old : V) (m : gmap string V) :
  m !! k' = Some old → emplace k v m !! k' = Some old.
Proof.
  intros H. destruct (decide (k = k')) as [->|Hne].
  - by rewrite lookup_emplace, H.
  - by rewrite lookup_emplace_ne.
Qed.


Lemma keeps_all_refl d : keeps_all d d.
Proof. repeat split; try done. exists []. by rewrite app_nil_r. Qed.

Lemma keeps_all_trans d1 d2 d3 : keeps_all d1 d2 → keeps_all d2 d3 → keeps_all d1 d3.
Proof.
  intros (P1 & C1 & K1 & A1 & O1 & F1 & G1 & [l1 M1])
         (P2 & C2 & K2 & A2 & O2 & F2 & G2 & [l2 M2]).
  repeat split; eauto; [congruence|].
  exists (l1 ++ l2). by rewrite M2, M1, app_assoc.
Qed.

Lemma call_keeps_all (op : BuilderOp) (self self' : RawConcreteModuleType) :
  call op self = Ok self' → keeps_all (raw_data_ self) (raw_data_ self').
Proof.
  destruct self as [d].
  destruct op as [n v|n [ty|] p|n [ty|] f|n m|n t|n l|n r|k|]; simpl;
    unfold addAttribute, addFunctionAttribute, addModuleInterface; simpl;
    try destruct (is_FunctionType ty); try destruct (is_module_InterfaceType t);
    intros H; try discriminate H; injection H as <-; simpl;
    repeat split; try done; eauto using emplace_keeps;
    try (exists []; by rewrite app_nil_r).
Qed.

Lemma call_well_formed (op : BuilderOp) (self self' : RawConcreteModuleType) :
  well_formed (raw_data_ self) → call op self = Ok self' →
  well_formed (raw_data_ self').
Proof.
  destruct self as [d]. intros (Hattr & Hfun & Hmod). simpl in Hattr, Hfun, Hmod.
  destruct op as [n v|n [ty|] p|n [ty|] f|n m|n t|n l|n r|k|]; simpl;
    unfold addAttribute, addFunctionAttribute, addModuleInterface; simpl;
    try destruct (is_FunctionType ty) eqn:Hty;
    try destruct (is_module_InterfaceType t) eqn:Ht;
    intros H; try discriminate H; injection H as <-;
    (split; [|split]); simpl; try assumption.
  - (* addAttribute *)
    intros k a Hk. destruct (decide (n = k)) as [->|Hne].
    + rewrite lookup_emplace in Hk. injection Hk as <-.
      destruct (attributes_ d !! k) as [old|] eqn:Hold; simpl; eauto.
    + rewrite lookup_emplace_ne in Hk by done. eauto.
  - (* addFunctionAttribute *)
    intros k g Hk. destruct (decide (n = k)) as [->|Hne].
    + rewrite lookup_emplace in Hk. injection Hk as <-.
      destruct (functionAttributes_ d !! k) as [old|] eqn:Hold; simpl; eauto.
    + rewrite lookup_emplace_ne in Hk by done. eauto.
  - (* addModule *)
    intros info t Hin Hinfo.
    apply elem_of_app in Hin as [Hin|Hin]; [eauto|].
    apply list_elem_of_singleton in Hin as ->. discriminate Hinfo.
  - (* addModuleInterface *)
    intros info t' Hin Hinfo.
    apply elem_of_app in Hin as [Hin|Hin]; [eauto|].
    apply list_elem_of_singleton in Hin as ->. simpl in *.
    injection Hinfo as <-. done.
Qed.

Lemma calls_on_ind (P : RawConcreteModuleType → RawConcreteModuleType → Prop) :
  (∀ s, P s s) →
  (∀ op s s' s'', call op s = Ok s' → P s' s'' → P s s'') →
  ∀ ops s s', calls_on ops s = Ok s' → P s s'.
Proof.
  intros Hrefl Hstep ops. induction ops as [|op ops IH]; intros s s'; simpl.
  - intros H. injection H as <-. apply Hrefl.
  - destruct (call op s) as [s1| |] eqn:Hcall; try discriminate.
    intros H. eapply Hstep; eauto.
Qed.

Lemma new_well_formed (pyClass : PyObject) : well_formed (raw_data_ (new pyClass)).
Proof.
  repeat split; intros; simpl in *;
    try (rewrite lookup_empty in *; discriminate);
    by match goal with H : _ ∈ [] |- _ => apply elem_of_nil in H end.
Qed.

End CallFacts.

(** X7. The assertions of the builder keep the descriptor well formed
    through any sequence of calls that go through: every attribute holds the
    unshaped form of a type that is no function type, every function
    attribute holds a function type, and every submodule entry with an
    interface type holds a module interface and no finalized type. A fresh
    builder is well formed, so every descriptor the driver can build is. *)
Theorem builder_keeps_descriptor_well_formed
    {JT : JitTypes} {Py : PyRuntime} (ops : list BuilderOp)
    (self self' : RawConcreteModuleType)
    (Hwf : well_formed (raw_data_ self))
    (Hcalls : calls_on ops self = Ok self') :
  well_formed (raw_data_ self') ∧
  (∀ pyClass r, calls_on ops (new pyClass) = Ok r → well_formed (raw_data_ r)).
Proof.
  assert (∀ s s', calls_on ops s = Ok s' →
                  well_formed (raw_data_ s) → well_formed (raw_data_ s')) as Hall.
  { apply (calls_on_ind (λ s s', well_formed (raw_data_ s) →
                                 well_formed (raw_data_ s'))).
    - done.
    - intros op s s1 s2 Hcall IH Hs. apply IH. by apply (call_well_formed op s). }
  split; [by apply (Hall self)|].
  intros pyClass r Hr. apply (Hall _ _ Hr), new_well_formed.
Qed.

Lemma builder_keeps_descriptor_well_formed_witness :
  ∃ r, calls_on (JT := Example.types) Example.discovery Example.base = Ok r ∧
       well_formed (JT := Example.types) (raw_data_ r).
Proof.
  eexists. split; [vm_compute; reflexivity|].
  refine (proj1 (builder_keeps_descriptor_well_formed
                   (JT := Example.types) (Py := Example.python)
                   Example.discovery Example.base _
                   (new_well_formed (JT := Example.types) 10%N) _)).
  vm_compute. reflexivity.
Defined.

(** X8. The builder only adds: through any sequence of calls that go
    through, a poisoned builder stays poisoned, the Python class stays the
    same, every entry of a keyed member stays as it was stored, and the
    submodule entries already there stay at the front, in their order. *)
Theorem builder_never_changes_what_is_stored
    {JT : JitTypes} {Py : PyRuntime} (ops : list BuilderOp)
    (self self' : RawConcreteModuleType)
    (Hcalls : calls_on ops self = Ok self') :
  keeps_all (raw_data_ self) (raw_data_ self').
Proof.
  revert self self' Hcalls.
  apply (calls_on_ind (λ s s', keeps_all (raw_data_ s) (raw_data_ s'))).
  - intros s. apply keeps_all_refl.
  - intros op s s1 s2 Hcall IH.
    eapply keeps_all_trans; [by apply (call_keeps_all op)|done].
Qed.

Lemma builder_never_changes_what_is_stored_witness :
  ∃ r, calls_on (JT := Example.types)
                [AddConstant "k" 2%N; AddAttribute "w" (Some 2%N) false;
                 AddModule "a" (Some Example.Y); SetIterableModuleKind LIST]
                (setPoisoned Example.with_everything) = Ok r ∧
       keeps_all (raw_data_ (setPoisoned Example.with_everything)) (raw_data_ r).
Proof.
  eexists. split; [vm_compute; reflexivity|].
  apply (builder_never_changes_what_is_stored
           (JT := Example.types) (Py := Example.python)
           [AddConstant "k" 2%N; AddAttribute "w" (Some 2%N) false;
            AddModule "a" (Some Example.Y); SetIterableModuleKind LIST]).
  vm_compute. reflexivity.
Defined.

Section Commutation.
Context {JT : JitTypes} {Py : PyRuntime}.



End Commutation.



(** * Further properties of the finalized type *)

Section QueryFacts.
Context {JT : JitTypes} {Py : PyRuntime} {CU : Type} {Reg : TypeRegistry CU}.

Lemma build_data (self : RawConcreteModuleType) (st : JitState CU) :
  data_ (build self st).1 = raw_data_ self.
Proof. by rewrite build_unfold. Qed.

Lemma build_jitType (self : RawConcreteModuleType) (st : JitState CU) :
  jitType_ (build self st).1 = Some (N.of_nat (length (classes st))).
Proof.
  rewrite build_unfold. simpl. f_equal.
  by destruct (createTypeFromData_spec (raw_data_ self) st) as (-> & _).
Qed.

Lemma find_app {A} (f : A → bool) (l1 l2 : list A) :
  List.find f (l1 ++ l2) =
  match List.find f l1 with
  | Some x => Some x
  | None => List.find f l2
  end.
Proof. induction l1 as [|x l1 IH]; simpl; [done|]. by destruct (f x). Qed.

Lemma find_none_iff {A} (f : A → bool) (l : list A) :
  List.find f l = None ↔ ∀ x, x ∈ l → f x = false.
Proof.
  induction l as [|x l IH]; simpl.
  - split; [|done]. intros _ y Hy. by apply elem_of_nil in Hy.
  - destruct (f x) eqn:Hx.
    + split; [done|]. intros H. rewrite (H x) in Hx by left. discriminate Hx.
    + rewrite IH. split.
      * intros H y [->|Hy]%elem_of_cons; [done | by apply H].
      * intros H y Hy. apply H. by right.
Qed.

End QueryFacts.

(** X10. What was put into the builder is what the finalized type answers.
    After [addConstant], [addOverload] or [addFailedAttribute] and [build],
    the query for the name gives the value stored first under it (the new
    one if the name was free) and the query for any other name gives what it
    gave without the call; a finalized type built from a fresh builder finds
    nothing, under any name, and gives back the Python class it was made
    for; the iterable kind is the one set last. *)
Theorem queries_answer_what_the_builder_stored
    {JT : JitTypes} {Py : PyRuntime} {CU : Type} {Reg : TypeRegistry CU}
    (self : RawConcreteModuleType) (st : JitState CU) (name : string) :
  (∀ value,
     findConstant name (build (addConstant name value self) st).1
     = Some (default value (findConstant name (build self st).1)) ∧
     ∀ other, name ≠ other →
       findConstant other (build (addConstant name value self) st).1
       = findConstant other (build self st).1) ∧
  (∀ names,
     findOverloads name (build (addOverload name names self) st).1
     = Some (default names (findOverloads name (build self st).1)) ∧
     ∀ other, name ≠ other →
       findOverloads other (build (addOverload name names self) st).1
       = findOverloads other (build self st).1) ∧
  (∀ reason,
     findFailedAttribute name (build (addFailedAttribute name reason self) st).1
     = Some (default reason (findFailedAttribute name (build self st).1)) ∧
     ∀ other, name ≠ other →
       findFailedAttribute other (build (addFailedAttribute name reason self) st).1
       = findFailedAttribute other (build self st).1) ∧
  (∀ pyClass,
     findConstant name (build (new pyClass) st).1 = None ∧
     findOverloads name (build (new pyClass) st).1 = None ∧
     findFailedAttribute name (build (new pyClass) st).1 = None ∧
     findSubmoduleConcreteType name (build (new pyClass) st).1 = None ∧
     getPyClass (build (new pyClass) st).1 = pyClass ∧
     getIterableModuleKind (build (new pyClass) st).1 = NONE) ∧
  (∀ kind kind',
     getIterableModuleKind
       (build (setIterableModuleKind kind' (setIterableModuleKind kind self)) st).1
     = kind').
Proof.
  unfold findConstant, findOverloads, findFailedAttribute,
    findSubmoduleConcreteType, getPyClass, getIterableModuleKind, find.
  split; [|split; [|split; [|split]]].
  - intros value. rewrite !build_data. simpl. split.
    + rewrite lookup_emplace. by destruct (constants_ (raw_data_ self) !! name).
    + intros other Hne. rewrite ?build_data. simpl. by rewrite lookup_emplace_ne.
  - intros names. rewrite !build_data. simpl. split.
    + rewrite lookup_emplace. by destruct (overloads_ (raw_data_ self) !! name).
    + intros other Hne. rewrite ?build_data. simpl. by rewrite lookup_emplace_ne.
  - intros reason. rewrite !build_data. simpl. split.
    + rewrite lookup_emplace.
      by destruct (failedAttributes_ (raw_data_ self) !! name).
    + intros other Hne. rewrite ?build_data. simpl. by rewrite lookup_emplace_ne.
  - intros pyClass. rewrite !build_data. simpl. by rewrite !lookup_empty.
  - intros kind kind'. by rewrite build_data.
Qed.

(** X11. [findSubmoduleConcreteType] answers for the first entry of the
    name. After [addModule(name, meta)] and [build] it gives [meta] when no
    entry had the name, and what it gave before when one had: a second
    submodule of a name is stored but never found. Other names are not
    affected. An entry made by [addModuleInterface] answers with a null
    pointer, and goes on doing so when a finalized type is added under its
    name afterwards. *)
Theorem findSubmoduleConcreteType_first_match
    {JT : JitTypes} {Py : PyRuntime} {CU : Type} {Reg : TypeRegistry CU}
    (self : RawConcreteModuleType) (st : JitState CU) (name : string)
    (meta : option ConcreteModuleType) :
  ((∀ info, info ∈ modules_ (raw_data_ self) → name_ info ≠ name) →
   findSubmoduleConcreteType name (build (addModule name meta self) st).1 = meta) ∧
  ((∃ info, info ∈ modules_ (raw_data_ self) ∧ name_ info = name) →
   findSubmoduleConcreteType name (build (addModule name meta self) st).1
   = findSubmoduleConcreteType name (build self st).1) ∧
  (∀ other, other ≠ name →
   findSubmoduleConcreteType other (build (addModule name meta self) st).1
   = findSubmoduleConcreteType other (build self st).1) ∧
  (∀ type self',
     (∀ info, info ∈ modules_ (raw_data_ self) → name_ info ≠ name) →
     addModuleInterface name type self = Ok self' →
     findSubmoduleConcreteType name (build self' st).1 = None ∧
     findSubmoduleConcreteType name (build (addModule name meta self') st).1
     = None).
Proof.
  unfold findSubmoduleConcreteType. rewrite !build_data. simpl.
  assert ((∀ info, info ∈ modules_ (raw_data_ self) → name_ info ≠ name) →
          List.find (λ info, String.eqb (name_ info) name)
                    (modules_ (raw_data_ self)) = None) as Hfree.
  { intros Hno. apply find_none_iff. intros info Hin.
    apply String.eqb_neq. by apply Hno. }
  split; [|split; [|split]].
  - intros Hno. rewrite find_app, Hfree by done. simpl.
    by rewrite String.eqb_refl.
  - intros (info & Hin & Hname). rewrite find_app.
    destruct (List.find _ (modules_ (raw_data_ self))) as [found|] eqn:Hfind;
      [done|].
    rewrite find_none_iff in Hfind. specialize (Hfind info Hin).
    rewrite Hname, String.eqb_refl in Hfind. discriminate Hfind.
  - intros other Hne. rewrite ?build_data, find_app. clear Hfree.
    destruct (List.find _ (modules_ (raw_data_ self))); [done|]. simpl.
    rewrite (proj2 (String.eqb_neq name other)); [done|]. by intros ->.
  - intros type self' Hno. unfold addModuleInterface.
    destruct (is_module_InterfaceType type); [|discriminate].
    intros H. injection H as <-. rewrite ?build_data. simpl.
    rewrite <- app_assoc, !find_app, Hfree by done. simpl.
    by rewrite String.eqb_refl.
Qed.

Lemma findSubmoduleConcreteType_first_match_witness :
  findSubmoduleConcreteType "a"
    (build (Py := Example.python) (Reg := Example.fake_registry)
           Example.X_as_a Example.empty_state).1 = Some Example.X ∧
  findSubmoduleConcreteType "a"
    (build (Py := Example.python) (Reg := Example.fake_registry)
           Example.aXaY Example.empty_state).1 = Some Example.X.
Proof.
  destruct (findSubmoduleConcreteType_first_match
              (JT := Example.types) (Py := Example.python)
              (Reg := Example.fake_registry)
              Example.base Example.empty_state "a" (Some Example.X))
    as (Hfree & _).
  destruct (findSubmoduleConcreteType_first_match
              (JT := Example.types) (Py := Example.python)
              (Reg := Example.fake_registry)
              Example.X_as_a Example.empty_state "a" (Some Example.Y))
    as (_ & Htaken & _).
  split.
  - apply Hfree. intros info Hin. by apply elem_of_nil in Hin.
  - transitivity (findSubmoduleConcreteType "a"
      (build (Py := Example.python) (Reg := Example.fake_registry)
             Example.X_as_a Example.empty_state).1).
    + apply Htaken. exists (mkModuleInfo "a" (Some Example.X) None).
      split; [left | reflexivity].
    + apply Hfree. intros info Hin. by apply elem_of_nil in Hin.
Defined.

Lemma queries_answer_what_the_builder_stored_witness :
  findConstant "k"
    (build (Py := Example.python) (Reg := Example.fake_registry)
           (addConstant "k" 98%N Example.k99) Example.empty_state).1 = Some 99%N ∧
  findConstant "j"
    (build (Py := Example.python) (Reg := Example.fake_registry)
           (addConstant "k" 98%N Example.k99) Example.empty_state).1 = None.
Proof.
  destruct (queries_answer_what_the_builder_stored
              (JT := Example.types) (Py := Example.python)
              (Reg := Example.fake_registry)
              Example.k99 Example.empty_state "k") as (Hconst & _).
  destruct (Hconst 98%N) as (Hk & Hother).
  split.
  - rewrite Hk. reflexivity.
  - rewrite Hother by (intros H; discriminate H). reflexivity.
Defined.

(** * Further properties of [createTypeFromData] *)

Section LayoutFacts.
Context {JT : JitTypes} {Py : PyRuntime} {CU : Type} {Reg : TypeRegistry CU}.

(** The loop over [cls->addAttribute]: the fields are appended to the class
    object, one by one, and nothing else in the heap is touched. *)
Lemma foldl_ClassType_addAttribute {A} (field : A → string * TypePtr * bool)
    (l : list A) (heap : list ClassType) (c : ClassType) :
  foldl (λ h x, ClassType_addAttribute (N.of_nat (length heap))
                  (field x).1.1 (field x).1.2 (field x).2 h)
        (heap ++ [c]) l
  = heap ++ [mkClassType (cls_name c) (cls_is_module c)
                         (cls_attributes c ++ (field <$> l))].
Proof.
  revert c. induction l as [|x l IH]; intros c; simpl.
  - rewrite app_nil_r. by destruct c.
  - unfold ClassType_addAttribute at 2. rewrite Nat2N.id.
    rewrite alter_app_r_alt by lia. rewrite Nat.sub_diag. simpl.
    rewrite IH. simpl. rewrite <- app_assoc. simpl.
    by destruct (field x) as [[? ?] ?].
Qed.

Lemma createTypeFromData_classes (data : ConcreteModuleTypeData ConcreteModuleType)
    (st : JitState CU) :
  classes (createTypeFromData data st).2 =
  classes st ++
  [mkClassType (resolve_name (canonical_name data) (python_cu st)).1 true
     (((λ pr, (pr.1, Some (type_ pr.2), isParam_ pr.2))
         <$> map_to_list (attributes_ data)) ++
      ((λ info, (name_ info, ModuleInfo_getJitType info, false))
         <$> modules_ data))].
Proof.
  unfold createTypeFromData.
  destruct (resolve_name (canonical_name data) (python_cu st)) as [n cu1].
  cbn [ClassType_create fst snd python_cu classes].
  rewrite (foldl_ClassType_addAttribute
             (λ pr, (pr.1, Some (type_ pr.2), isParam_ pr.2))).
  rewrite (foldl_ClassType_addAttribute
             (λ info, (name_ info, ModuleInfo_getJitType info, false))).
  done.
Qed.

Lemma getModulesPy_fmap (self : ConcreteModuleType) :
  getModulesPy self
  = (λ info, (name_ info, ModuleInfo_getJitType info)) <$> modules_ (data_ self).
Proof.
  unfold getModulesPy.
  assert (∀ l acc,
            foldl (λ ret info, ret ++ [(name_ info, ModuleInfo_getJitType info)])
                  acc l
            = acc ++ ((λ info, (name_ info, ModuleInfo_getJitType info)) <$> l))
    as Hfold.
  { induction l as [|x l IH]; intros acc; simpl; [by rewrite app_nil_r|].
    by rewrite IH, <- app_assoc. }
  by rewrite Hfold.
Qed.

Lemma foldl_emplace_lookup {V W} (f : V → W) (l : list (string * V))
    (m0 : gmap string W) (k : string) :
  foldl (λ ret pr, emplace pr.1 (f pr.2) ret) m0 l !! k =
  match m0 !! k with
  | Some x => Some x
  | None => f <$> (list_to_map l : gmap string V) !! k
  end.
Proof.
  revert m0. induction l as [|[k0 v0] l IH]; intros m0; simpl.
  - rewrite lookup_empty. by destruct (m0 !! k).
  - rewrite IH. destruct (decide (k0 = k)) as [->|Hne].
    + rewrite lookup_emplace, lookup_insert_eq. by destruct (m0 !! k).
    + by rewrite lookup_emplace_ne, lookup_insert_ne.
Qed.

Lemma foldl_emplace_map_to_list {V W} (f : V → W) (m : gmap string V) :
  foldl (λ ret pr, emplace pr.1 (f pr.2) ret) ∅ (map_to_list m) = f <$> m.
Proof.
  apply map_eq. intros k.
  by rewrite foldl_emplace_lookup, lookup_empty, list_to_map_to_list, lookup_fmap.
Qed.

End LayoutFacts.

(** X12. [createTypeFromData] adds exactly one class object and touches no
    other: the class objects after the call are those before it followed by
    the new one, which is a module class of the resolved name with one field
    per attribute, of the attribute's type and parameter flag, followed by
    one field per submodule entry, in insertion order, none of them a
    parameter, of the type [ModuleInfo::getJitType] answers. *)
Theorem createTypeFromData_lays_out_the_class
    {JT : JitTypes} {Py : PyRuntime} {CU : Type} {Reg : TypeRegistry CU}
    (self : RawConcreteModuleType) (st : JitState CU) :
  let T := (build self st).1 in
  let st' := (build self st).2 in
  let fields :=
    ((λ pr, (pr.1, Some (type_ pr.2), isParam_ pr.2))
       <$> map_to_list (attributes_ (raw_data_ self))) ++
    ((λ nt, (nt.1, nt.2, false)) <$> getModulesPy T) in
  classes st' =
    classes st ++
    [mkClassType (resolve_name (canonical_name (raw_data_ self)) (python_cu st)).1
                 true fields] ∧
  jitType_ T = Some (N.of_nat (length (classes st))) ∧
  length fields
  = size (attributes_ (raw_data_ self)) + length (modules_ (raw_data_ self)) ∧
  (∀ k a, attributes_ (raw_data_ self) !! k = Some a →
          (k, Some (type_ a), isParam_ a) ∈ fields) ∧
  (∀ i info, modules_ (raw_data_ self) !! i = Some info →
     fields !! (size (attributes_ (raw_data_ self)) + i)
     = Some (name_ info, ModuleInfo_getJitType info, false)).
Proof.
  intros T st' fields. subst T st' fields.
  rewrite getModulesPy_fmap, build_data, build_jitType.
  rewrite build_unfold at 1. cbn [snd].
  rewrite createTypeFromData_classes, <- list_fmap_compose.
  split; [done|]. split; [done|].
  split; [|split].
  - by rewrite length_app, !length_fmap, length_map_to_list.
  - intros k a Hk. apply elem_of_app. left.
    apply list_elem_of_fmap. exists (k, a). split; [done|].
    by apply elem_of_map_to_list.
  - intros i info Hi.
    rewrite lookup_app_r; rewrite length_fmap, length_map_to_list; [|lia].
    replace (size (attributes_ (raw_data_ self)) + i
             - size (attributes_ (raw_data_ self))) with i by lia.
    by rewrite list_lookup_fmap, Hi.
Qed.

(** X13. [createTypeFromData] takes no name away: with a registry that keeps
    its word, the name the new class is registered under was held by nobody
    before the call, and every name that was held is held by the same class
    after it. *)
Theorem build_keeps_registered_names
    {JT : JitTypes} {Py : PyRuntime} {CU : Type} {Reg : TypeRegistry CU}
    {Laws : TypeRegistryLaws CU}
    (self : RawConcreteModuleType) (st : JitState CU)
    (n : QualifiedName) (cls : TypeRef)
    (Hheld : get_class n (python_cu st) = Some cls) :
  let resolved := (resolve_name (canonical_name (raw_data_ self)) (python_cu st)).1 in
  get_class n (python_cu (build self st).2) = Some cls ∧
  n ≠ resolved ∧
  get_class resolved (python_cu st) = None ∧
  get_class resolved (python_cu (build self st).2) = jitType_ (build self st).1.
Proof.
  intros resolved. rewrite build_unfold. cbn [fst snd jitType_].
  destruct (createTypeFromData_spec (raw_data_ self) st) as (_ & Hcu & _).
  cbn zeta in Hcu. fold resolved in Hcu.
  pose proof (resolve_name_fresh (canonical_name (raw_data_ self)) (python_cu st))
    as Hfresh. fold resolved in Hfresh.
  assert (get_class resolved (python_cu st) = None) as Hfree
    by (by rewrite <- (resolve_name_other (canonical_name (raw_data_ self)))).
  assert (n ≠ resolved) as Hne by (intros ->; congruence).
  rewrite Hcu. split; [|split; [done|split; [done|]]].
  - rewrite get_class_register_ne by done. by rewrite resolve_name_other.
  - apply get_class_register_eq.
Qed.

Lemma build_keeps_registered_names_witness :
  let st1 := (build (Py := Example.python) (Reg := Example.fake_registry)
                    Example.base Example.empty_state).2 in
  get_class (mkQualifiedName "__torch__" "M") (python_cu st1) = Some 0%N ∧
  get_class (mkQualifiedName "__torch__" "M")
            (python_cu (build (Py := Example.python) Example.k99 st1).2)
  = Some 0%N.
Proof.
  intros st1. split; [reflexivity|].
  exact (proj1 (build_keeps_registered_names
                  (JT := Example.types) (Py := Example.python)
                  (Reg := Example.fake_registry)
                  Example.k99 st1 (mkQualifiedName "__torch__" "M") 0%N eq_refl)).
Defined.

(** X14. Two finalized types built by different calls of [build] hold
    different class type objects, so [equals] on them never takes the short
    way: it is the comparison of the two descriptors, the same run with the
    same answer as [equals] on the builders they were built from. *)
Theorem equals_of_built_types_compares_descriptors
    {JT : JitTypes} {Py : PyRuntime} {CU : Type} {Reg : TypeRegistry CU}
    (a b : RawConcreteModuleType) (st st' : JitState CU)
    (Hlater : length (classes (build a st).2) ≤ length (classes st')) :
  jitType_ (build a st).1 ≠ jitType_ (build b st').1 ∧
  equals (build a st).1 (build b st').1 = Raw_equals a b ∧
  equals (build b st').1 (build a st).1 = Raw_equals b a ∧
  Raw_equals_finalized a (build b st').1 = Raw_equals a b.
Proof.
  assert (jitType_ (build a st).1 ≠ jitType_ (build b st').1) as Hjit.
  { rewrite !build_jitType. intros Heq. injection Heq as Heq.
    apply Nat2N.inj in Heq. rewrite build_unfold in Hlater. cbn [snd] in Hlater.
    destruct (createTypeFromData_spec (raw_data_ a) st) as (_ & _ & Hlen & _).
    cbn zeta in Hlen. lia. }
  split; [done|]. unfold Raw_equals, Raw_equals_finalized.
  rewrite !equals_unfold, !build_data.
  rewrite !bool_decide_eq_false_2; done.
Qed.

Lemma equals_of_built_types_compares_descriptors_witness :
  let st1 := (build (Py := Example.python) (Reg := Example.fake_registry)
                    Example.base Example.empty_state).2 in
  equals (JT := Example.types) (Py := Example.python)
         (build (Py := Example.python) (Reg := Example.fake_registry)
                Example.base Example.empty_state).1
         (build (Py := Example.python) (Reg := Example.fake_registry)
                Example.k99 st1).1
  = Raw_equals (JT := Example.types) (Py := Example.python)
               Example.base Example.k99.
Proof.
  intros st1.
  refine (proj1 (proj2 (equals_of_built_types_compares_descriptors
                          (JT := Example.types) (Py := Example.python)
                          (Reg := Example.fake_registry)
                          Example.base Example.k99 Example.empty_state st1 _))).
  vm_compute. lia.
Defined.

(** X15. The views handed to Python show the descriptor: [getConstantsPy]
    has, under each name, what [findConstant] finds; [getAttributesPy] has,
    under each name, the type and the parameter flag of the attribute, and no
    other name; [getModulesPy] lists the submodule entries in insertion
    order, under their names, a finalized type by its class type and an
    interface by its type. *)
Theorem python_views_show_the_descriptor (self : ConcreteModuleType) :
  (∀ k, getConstantsPy self !! k = findConstant k self) ∧
  (∀ k, getAttributesPy self !! k
        = (λ a, (Some (type_ a), isParam_ a)) <$> attributes_ (data_ self) !! k) ∧
  (getModulesPy self).*1 = name_ <$> modules_ (data_ self) ∧
  (∀ i info, modules_ (data_ self) !! i = Some info →
     getModulesPy self !! i
     = Some (name_ info,
             match meta_ info with
             | Some meta => jitType_ meta
             | None => mtype_ info
             end)).
Proof.
  unfold getConstantsPy, getAttributesPy, findConstant, find.
  rewrite (foldl_emplace_map_to_list v_).
  rewrite (foldl_emplace_map_to_list (λ a : Attribute, (Some (type_ a), isParam_ a))).
  rewrite getModulesPy_fmap.
  split; [|split; [|split]].
  - intros k. by rewrite lookup_fmap.
  - intros k. by rewrite lookup_fmap.
  - rewrite <- list_fmap_compose. done.
  - intros i info Hi. by rewrite list_lookup_fmap, Hi.
Qed.

(** * Symmetry of the answer [true] *)

Section Symmetry.
Context {JT : JitTypes} {Py : PyRuntime}.

Lemma unordered_map_eq_true_intro {V} (value_eq : V → V → Comp bool)
    (lhs rhs : gmap string V) :
  size lhs = size rhs →
  (∀ k v, lhs !! k = Some v →
          ∃ w, rhs !! k = Some w ∧ result (value_eq v w) = Ok true) →
  result (unordered_map_eq value_eq lhs rhs) = Ok true.
Proof.
  intros Hsize Hall. unfold unordered_map_eq.
  rewrite (proj2 (Nat.eqb_eq _ _) Hsize). simpl.
  apply allM_all_true. intros [k v] Hin%elem_of_map_to_list. simpl.
  destruct (Hall k v Hin) as (w & -> & Hw). done.
Qed.

Lemma unordered_map_eq_true_swap {V} (eq1 eq2 : V → V → Comp bool)
    (lhs rhs : gmap string V) :
  (∀ v w, result (eq1 v w) = Ok true → result (eq2 w v) = Ok true) →
  result (unordered_map_eq eq1 lhs rhs) = Ok true →
  result (unordered_map_eq eq2 rhs lhs) = Ok true.
Proof.
  intros Hswap [Hsize Hall]%unordered_map_eq_true_inv.
  assert (dom lhs =@{gset string} dom rhs) as Hdom.
  { apply same_size_same_keys; [done|]. intros k [v Hv].
    destruct (Hall k v Hv) as (w & Hw & _). by exists w. }
  apply unordered_map_eq_true_intro; [done|]. intros k w Hw.
  assert (is_Some (lhs !! k)) as [v Hv].
  { apply (elem_of_dom (D := gset string)). rewrite Hdom.
    apply elem_of_dom. by exists w. }
  exists v. split; [done|]. destruct (Hall k v Hv) as (w' & Hw' & Heq).
  assert (w' = w) as -> by congruence. by apply Hswap.
Qed.

Lemma unordered_map_eqb_true_swap {V} (f : V → V → bool) (lhs rhs : gmap string V) :
  (∀ v w, f v w = true → f w v = true) →
  unordered_map_eqb f lhs rhs = true → unordered_map_eqb f rhs lhs = true.
Proof.
  intros Hswap Heq.
  assert (result (unordered_map_eq (λ a b, mret (f a b)) rhs lhs) = Ok true) as H.
  { apply (unordered_map_eq_true_swap (λ a b, mret (f a b))).
    - intros v w Hvw. injection Hvw as Hvw. cbn. f_equal. by apply Hswap.
    - by rewrite unordered_map_eq_pure, Heq. }
  rewrite unordered_map_eq_pure in H. by injection H.
Qed.

Lemma std_equal_true_intro {A} (elem_eq : A → A → Comp bool) (l1 l2 : list A) :
  Forall2 (λ x y, result (elem_eq x y) = Ok true) l1 l2 →
  result (std_equal elem_eq l1 l2) = Ok true.
Proof.
  induction 1 as [|x y l1 l2 Hxy _ IH]; simpl; [done|].
  by rewrite result_bind, Hxy.
Qed.

Lemma Forall2_impl_elem_of {A B} (P Q : A → B → Prop) (l : list A) (k : list B) :
  Forall2 P l k → (∀ x y, x ∈ l → P x y → Q x y) → Forall2 Q l k.
Proof.
  induction 1 as [|x y l k Hxy _ IH]; intros Himpl; constructor.
  - apply Himpl; [left | done].
  - apply IH. intros x' y' Hx'. apply Himpl. by right.
Qed.

Lemma ModuleInfo_eq_true_swap {M} (eqM : M → M → Comp bool) (x y : ModuleInfo M) :
  (∀ s t, type_equal s t = true → type_equal t s = true) →
  (∀ l r, meta_ x = Some l → result (eqM l r) = Ok true →
          result (eqM r l) = Ok true) →
  result (ModuleInfo_eq eqM x y) = Ok true →
  result (ModuleInfo_eq eqM y x) = Ok true.
Proof.
  intros Hty Hmeta. unfold ModuleInfo_eq.
  destruct (meta_ x) as [l|], (meta_ y) as [r|]; eauto;
    destruct (mtype_ x) as [s|], (mtype_ y) as [t|]; try discriminate;
    intros H; injection H as H; cbn; f_equal; by apply Hty.
Qed.

Lemma ConcreteModuleTypeData_eq_true_intro {M} (eqM : M → M → Comp bool)
    (lhs rhs : ConcreteModuleTypeData M) :
  isPoisoned_ lhs = false → isPoisoned_ rhs = false →
  py_is (pyClass_ lhs) (pyClass_ rhs) = true →
  iterableModuleKind_ lhs = iterableModuleKind_ rhs →
  result (unordered_map_eq Constant_eq (constants_ lhs) (constants_ rhs)) = Ok true →
  unordered_map_eqb Attribute_eq (attributes_ lhs) (attributes_ rhs) = true →
  unordered_map_eqb (λ a b, bool_decide (a = b))
                    (overloads_ lhs) (overloads_ rhs) = true →
  unordered_map_eqb FunctionAttribute_eq
                    (functionAttributes_ lhs) (functionAttributes_ rhs) = true →
  result (vector_eq (ModuleInfo_eq eqM) (sort_by_name (modules_ lhs))
                    (sort_by_name (modules_ rhs))) = Ok true →
  result (ConcreteModuleTypeData_eq eqM lhs rhs) = Ok true.
Proof.
  intros Hl Hr Hclass Hkind Hconst Hattr Hover Hfun Hmod.
  rewrite ConcreteModuleTypeData_eq_shape, Hl, Hr, Hclass. simpl.
  rewrite bool_decide_eq_true_2 by done. simpl.
  by rewrite result_bind, Hconst, Hattr, Hover, Hfun.
Qed.

Lemma ConcreteModuleTypeData_eq_true_swap {M} (eqM : M → M → Comp bool)
    (lhs rhs : ConcreteModuleTypeData M) :
  (∀ x y, PyObject_RichCompareBool_EQ x y = 1%Z →
          PyObject_RichCompareBool_EQ y x = 1%Z) →
  (∀ s t, type_equal s t = true → type_equal t s = true) →
  (∀ info l r, info ∈ modules_ lhs → meta_ info = Some l →
               result (eqM l r) = Ok true → result (eqM r l) = Ok true) →
  result (ConcreteModuleTypeData_eq eqM lhs rhs) = Ok true →
  result (ConcreteModuleTypeData_eq eqM rhs lhs) = Ok true.
Proof.
  intros Hpy Hty Hmeta Heq.
  apply ConcreteModuleTypeData_eq_true_inv in Heq
    as (Hl & Hr & Hclass & Hkind & Hconst & Hattr & Hover & Hfun & Hmod).
  apply ConcreteModuleTypeData_eq_true_intro; try done.
  - unfold py_is in *. apply N.eqb_eq in Hclass. by apply N.eqb_eq.
  - revert Hconst. apply unordered_map_eq_true_swap.
    intros v w. unfold Constant_eq. simpl.
    destruct (PyObject_RichCompareBool_EQ (v_ v) (v_ w) =? -1)%Z;
      [discriminate|].
    intros H. injection H as H. apply Z.eqb_eq in H. by rewrite (Hpy _ _ H).
  - revert Hattr. apply unordered_map_eqb_true_swap.
    intros a b [Ht Hp]%andb_true_iff. unfold Attribute_eq.
    apply bool_decide_eq_true_1 in Hp. rewrite (Hty _ _ Ht). simpl.
    by apply bool_decide_eq_true_2.
  - revert Hover. apply unordered_map_eqb_true_swap.
    intros a b Hab%bool_decide_eq_true_1. by apply bool_decide_eq_true_2.
  - revert Hfun. apply unordered_map_eqb_true_swap.
    intros f g. unfold FunctionAttribute_eq, py_is. rewrite !N.eqb_eq. done.
  - apply modules_eq_true_inv in Hmod as [Hlen Hall].
    unfold vector_eq. rewrite !length_sort_by_name, Hlen, Nat.eqb_refl. simpl.
    apply std_equal_true_intro, Forall2_flip.
    eapply Forall2_impl_elem_of; [exact Hall|].
    intros x y Hx Hxy. simpl. revert Hxy.
    apply ModuleInfo_eq_true_swap; [done|].
    intros l r Hl'. apply (Hmeta x); [|done]. by apply elem_of_sort_by_name.
Qed.

Lemma equals_true_swap (lhs rhs : ConcreteModuleType) :
  (∀ x y, PyObject_RichCompareBool_EQ x y = 1%Z →
          PyObject_RichCompareBool_EQ y x = 1%Z) →
  (∀ s t, type_equal s t = true → type_equal t s = true) →
  result (equals lhs rhs) = Ok true → result (equals rhs lhs) = Ok true.
Proof.
  intros Hpy Hty. remember (height lhs) as n eqn:Hn. revert lhs rhs Hn.
  induction n as [n IH] using lt_wf_ind. intros lhs rhs -> Heq.
  rewrite equals_unfold in *. case_bool_decide as Hjit.
  - by rewrite bool_decide_eq_true_2.
  - rewrite bool_decide_eq_false_2 by done. revert Heq.
    apply ConcreteModuleTypeData_eq_true_swap; [done..|].
    intros info l r Hin Hl. apply (IH (height l)); [|done].
    by apply (height_submodule lhs l info).
Qed.

End Symmetry.

(** X16. With a Python equality and a type equality that are symmetric
    where they say "equal", the answer [true] does not depend on the side:
    if [a.equals(b)] is true then so is [b.equals(a)], for builders, for a
    builder and a finalized type, and for finalized types, through all
    nested submodules. *)
Theorem equal_is_symmetric
    {JT : JitTypes} {Py : PyRuntime}
    (Hpython : ∀ x y, PyObject_RichCompareBool_EQ x y = 1%Z →
                      PyObject_RichCompareBool_EQ y x = 1%Z)
    (Htypes : ∀ s t, type_equal s t = true → type_equal t s = true) :
  (∀ a b : RawConcreteModuleType,
     result (Raw_equals a b) = Ok true → result (Raw_equals b a) = Ok true) ∧
  (∀ (a : RawConcreteModuleType) (T : ConcreteModuleType),
     result (Raw_equals_finalized a T) = Ok true →
     result (Raw_equals (mkRaw (data_ T)) a) = Ok true) ∧
  (∀ T U : ConcreteModuleType,
     result (equals T U) = Ok true → result (equals U T) = Ok true).
Proof.
  assert (∀ lhs rhs : ConcreteModuleTypeData ConcreteModuleType,
            result (ConcreteModuleTypeData_eq equals lhs rhs) = Ok true →
            result (ConcreteModuleTypeData_eq equals rhs lhs) = Ok true) as Hdata.
  { intros lhs rhs. apply ConcreteModuleTypeData_eq_true_swap; [done..|].
    intros info l r _ _. by apply equals_true_swap. }
  split; [|split].
  - intros a b. apply Hdata.
  - intros a T. apply Hdata.
  - intros T U. by apply equals_true_swap.
Qed.

Lemma equal_is_symmetric_witness :
  result (Raw_equals (JT := Example.types) (Py := Example.python)
                     Example.ba Example.ab) = Ok true.
Proof.
  refine (proj1 (equal_is_symmetric
                   (JT := Example.types) (Py := Example.python) _ _)
                Example.ab Example.ba _).
  - intros x y. simpl. destruct (N.eqb_spec x y) as [->|Hne].
    + by rewrite N.eqb_refl.
    + destruct ((x =? 99)%N || (y =? 99)%N); discriminate.
  - intros s t. simpl. rewrite !N.eqb_eq. done.
  - vm_compute. reflexivity.
Defined.

(** X17. What poisoning does to a finalized type: built from a poisoned
    builder, it is equal to itself, by the identity of its class type
    object, and to no finalized type of another call of [build], not even
    one built from the same builder; and no builder equals it. *)
Theorem poisoned_type_is_shared_with_no_other_build
    {JT : JitTypes} {Py : PyRuntime} {CU : Type} {Reg : TypeRegistry CU}
    (a b : RawConcreteModuleType) (st st' : JitState CU)
    (Hpoisoned : isPoisoned_ (raw_data_ a) = true)
    (Hlater : length (classes (build a st).2) ≤ length (classes st')) :
  equals (build a st).1 (build a st).1 = mret true ∧
  equals (build a st).1 (build a st').1 = mret false ∧
  equals (build a st).1 (build b st').1 = mret false ∧
  equals (build b st').1 (build a st).1 = mret false ∧
  Raw_equals_finalized b (build a st).1 = mret false.
Proof.
  assert (∀ c, jitType_ (build a st).1 ≠ jitType_ (build c st').1) as Hjit.
  { intros c. rewrite !build_jitType. intros Heq. injection Heq as Heq.
    apply Nat2N.inj in Heq. rewrite build_unfold in Hlater. cbn [snd] in Hlater.
    destruct (createTypeFromData_spec (raw_data_ a) st) as (_ & _ & Hlen & _).
    cbn zeta in Hlen. lia. }
  split; [by apply equals_same_jitType|].
  unfold Raw_equals_finalized. rewrite !equals_unfold, !build_data.
  rewrite !(bool_decide_eq_false_2 _ (Hjit _)).
  rewrite (bool_decide_eq_false_2 (jitType_ (build b st').1 = _))
    by (intros Heq; by apply (Hjit b)).
  rewrite !ConcreteModuleTypeData_eq_poisoned_l by done.
  by rewrite !ConcreteModuleTypeData_eq_poisoned_r.
Qed.

Lemma poisoned_type_is_shared_with_no_other_build_witness :
  let st1 := (build (Py := Example.python) (Reg := Example.fake_registry)
                    Example.poisoned_ab Example.empty_state).2 in
  equals (JT := Example.types) (Py := Example.python)
         (build (Py := Example.python) (Reg := Example.fake_registry)
                Example.poisoned_ab Example.empty_state).1
         (build (Py := Example.python) (Reg := Example.fake_registry)
                Example.poisoned_ab st1).1
  = mret false.
Proof.
  intros st1.
  refine (proj1 (proj2 (poisoned_type_is_shared_with_no_other_build
                          (JT := Example.types) (Py := Example.python)
                          (Reg := Example.fake_registry)
                          Example.poisoned_ab Example.base
                          Example.empty_state st1 eq_refl _))).
  vm_compute. lia.
Defined.
